(** * The audit-logging client of RL-autoScalar (blockchain/audit_logger.py)

    A shallow embedding of [AuditLogger]: the client is a program that
    talks to web3 (the ledger gateway, the contract binding, the account
    and the local clock), so every method is a tree of requests whose
    continuation receives either the reply or the exception that web3
    raised.  A run of such a tree against a handler yields the result, the
    final state of the world and the trace of requests and log records. *)

From Stdlib Require Import String Ascii ZArith List Lia Bool DecimalString.
From Stdlib.Strings Require Import Byte.
From ExtLib Require Import Structures.Monad Structures.MonadExc.
Import ListNotations.
Import MonadNotation.

Local Open Scope string_scope.
Local Open Scope Z_scope.
Local Open Scope monad_scope.

Set Implicit Arguments.

(** ** Python values and exceptions *)

(** A field of a tuple decoded from the contract: [str] or [int]. *)
Inductive value :=
| VStr (s : string)
| VInt (z : Z).

(** The exception classes the client raises, catches or lets through.
    [OtherException] stands for any other subclass of [Exception]. *)
Inductive exn_class :=
| FileNotFoundError
| ValueError
| IndexError
| TypeError
| ContractLogicError
| TimeExhausted
| Exception
| OtherException (name : string).

Record exn := mk_exn { exn_cls : exn_class; exn_msg : string }.

(** [str(e)] *)
Definition str_exn (e : exn) : string := exn_msg e.

Definition is_FileNotFoundError (e : exn) : bool :=
  match exn_cls e with FileNotFoundError => true | _ => false end.

Definition is_ContractLogicError (e : exn) : bool :=
  match exn_cls e with ContractLogicError => true | _ => false end.

Definition result (A : Type) : Type := (exn + A)%type.

(** [str(n)] for an [int], as an f-string renders it. *)
Definition str_int (z : Z) : string := NilZero.string_of_int (Z.to_int z).

(** [repr(v)], quotes inside a [str] are not escaped here. *)
Definition repr (v : value) : string :=
  match v with
  | VStr s => "'" ++ s ++ "'"
  | VInt z => str_int z
  end.

(** [str.lower()] on the ASCII range, enough for hexadecimal addresses. *)
Definition ascii_lower (c : ascii) : ascii :=
  let n := N_of_ascii c in
  if ((65 <=? n) && (n <=? 90))%N then ascii_of_N (n + 32) else c.

Fixpoint lower (s : string) : string :=
  match s with
  | EmptyString => EmptyString
  | String c r => String (ascii_lower c) (lower r)
  end.

(** [Web3.to_hex] of a byte string: [0x] and two lowercase digits a byte. *)
Definition hex_digit (n : N) : ascii :=
  if (n <? 10)%N then ascii_of_N (48 + n) else ascii_of_N (87 + n).

Definition hex_byte (b : byte) : string :=
  let n := Byte.to_N b in
  String (hex_digit (n / 16)) (String (hex_digit (n mod 16)) EmptyString).

Definition to_hex (bs : list byte) : string :=
  "0x" ++ String.concat "" (map hex_byte bs).

(** ** NodeStatus *)

(** [class NodeStatus(IntEnum)] *)
Inductive NodeStatus :=
| Normal
| Scaling
| Alert.

(** [int(status)] *)
Definition int_of_NodeStatus (s : NodeStatus) : Z :=
  match s with
  | Normal => 0
  | Scaling => 1
  | Alert => 2
  end.

(** [status.name] *)
Definition name (s : NodeStatus) : string :=
  match s with
  | Normal => "Normal"
  | Scaling => "Scaling"
  | Alert => "Alert"
  end.

(** [NodeStatus(v)]: the member whose value is [v], [ValueError] when there
    is none. *)
Definition NodeStatus_of_value (v : value) : result NodeStatus :=
  match v with
  | VInt 0 => inr Normal
  | VInt 1 => inr Scaling
  | VInt 2 => inr Alert
  | _ => inl (mk_exn ValueError (repr v ++ " is not a valid NodeStatus"))
  end.

(** ** What the client exchanges with web3 *)

(** [contract.functions.<name>(args...)] for the two write methods. *)
Inductive contract_function :=
| logNodeMetrics (node_id : string) (memory_usage cpu_load allocated_memory status : Z)
| logScalingAction (node_id action reason : string).

(** The dict handed to [build_transaction]. *)
Record TxParams := mk_params {
  chainId : Z;
  gas : Z;
  gasPrice : Z;
  nonce : Z
}.

(** The transaction dict that [build_transaction] returns. *)
Record Transaction := mk_txn {
  tx_data : contract_function;
  tx_params : TxParams
}.

(** A signed payload, symbolically: the transaction and the key that signed
    it.  The ledger recovers the sender from it. *)
Record RawTransaction := mk_raw {
  raw_txn : Transaction;
  raw_key : string
}.

(** The result of [sign_transaction]. *)
Record SignedTransaction := mk_signed { rawTransaction : RawTransaction }.

(** [web3.eth.account.from_key(private_key)] *)
Record Account := mk_account {
  account_address : string;
  key : string
}.

(** The receipt, of which the client reads [receipt['status']]. *)
Record Receipt := mk_receipt {
  status : Z;
  transactionHash : list byte
}.

(** The contract interface description read from [abi_path]. *)
Definition ABI : Type := string.

Inductive level := INFO | WARNING | ERROR.

(** The operations of web3, of the file system and of the clock that the
    client calls. *)
Inductive request :=
| open_json_load (abi_path : string)
| to_checksum_address (contract_address : string)
| eth_contract (address : string) (abi : ABI)
| account_from_key (private_key : string)
| call_authorizedLoggers (address : string)
| call_owner
| call_getLatestNodeMetrics (node_id : string)
| call_getNodeMetricsHistory (node_id : string) (start_index count : Z)
| contract_functions (f : contract_function)
| get_transaction_count (address : string)
| chain_id
| gas_price
| build_transaction (f : contract_function) (params : TxParams)
| sign_transaction (txn : Transaction) (private_key : string)
| send_raw_transaction (raw : RawTransaction)
| wait_for_transaction_receipt (tx_hash : list byte)
| strftime_localtime (timestamp : value).

Definition reply_ty (q : request) : Type :=
  match q with
  | open_json_load _ => ABI
  | to_checksum_address _ => string
  | eth_contract _ _ => unit
  | account_from_key _ => Account
  | call_authorizedLoggers _ => bool
  | call_owner => string
  | call_getLatestNodeMetrics _ => list value
  | call_getNodeMetricsHistory _ _ _ => list (list value)
  | contract_functions _ => unit
  | get_transaction_count _ => Z
  | chain_id => Z
  | gas_price => Z
  | build_transaction _ _ => Transaction
  | sign_transaction _ _ => SignedTransaction
  | send_raw_transaction _ => list byte
  | wait_for_transaction_receipt _ => Receipt
  | strftime_localtime _ => string
  end.

(** A write attempt is a broadcast: nothing else changes the ledger. *)
Definition is_write (q : request) : bool :=
  match q with
  | send_raw_transaction _ => true
  | _ => false
  end.

(** ** Programs *)

Inductive prog (R : Type) : Type :=
| Ret (r : R)
| Raise (e : exn)
| Log (l : level) (msg : string) (k : prog R)
| Vis (q : request) (k : result (reply_ty q) -> prog R).

Arguments Ret {R} r.
Arguments Raise {R} e.
Arguments Log {R} l msg k.
Arguments Vis {R} q k.

Fixpoint prog_bind {A B : Type} (p : prog A) (f : A -> prog B) : prog B :=
  match p with
  | Ret a => f a
  | Raise e => Raise e
  | Log l m k => Log l m (prog_bind k f)
  | Vis q k => Vis q (fun x => prog_bind (k x) f)
  end.

(** [try: p except Exception as e: h e] *)
Fixpoint prog_catch {A : Type} (p : prog A) (h : exn -> prog A) : prog A :=
  match p with
  | Ret a => Ret a
  | Raise e => h e
  | Log l m k => Log l m (prog_catch k h)
  | Vis q k => Vis q (fun x => prog_catch (k x) h)
  end.

#[export] Instance Monad_prog : Monad prog :=
  {| ret := @Ret; bind := @prog_bind |}.

#[export] Instance MonadExc_prog : MonadExc exn prog :=
  {| raise := @Raise; catch := @prog_catch |}.

(** A call into web3: the reply, or the exception it raised. *)
Definition perform (q : request) : prog (reply_ty q) :=
  Vis q (fun x => match x with inl e => Raise e | inr a => Ret a end).

(** [logger.info], [logger.warning], [logger.error] *)
Definition logger (l : level) (msg : string) : prog unit := Log l msg (Ret tt).

(** ** Runs *)

Inductive item :=
| Req (q : request)
| Logged (l : level) (msg : string).

Definition trace : Type := list item.

Definition handler (W : Type) : Type :=
  forall q : request, W -> result (reply_ty q) * W.

Fixpoint run {W R : Type} (h : handler W) (p : prog R) (w : W)
  : result R * W * trace :=
  match p with
  | Ret r => (inr r, w, [])
  | Raise e => (inl e, w, [])
  | Log l m k =>
      let '(r, w', t) := run h k w in (r, w', Logged l m :: t)
  | Vis q k =>
      let '(x, w1) := h q w in
      let '(r, w', t) := run h (k x) w1 in (r, w', Req q :: t)
  end.

(** The requests of a trace, and its broadcasts. *)
Definition requests (t : trace) : list request :=
  flat_map (fun i => match i with Req q => [q] | Logged _ _ => [] end) t.

Definition writes (t : trace) : list request := filter is_write (requests t).

(** ** The client *)

(** The attributes [__init__] sets.  [web3] is the gateway the provider URI
    designates and [contract] the binding of the ABI to the address. *)
Record AuditLogger := mk_AuditLogger {
  web3 : string;
  contract_address : string;
  contract : string * ABI;
  account : Account;
  address : string
}.

(** [gas_limit=300000] *)
Definition gas_limit_default : Z := 300000.

(** [AuditLogger._check_authorization] *)
Definition _check_authorization (self : AuditLogger) : prog unit :=
  catch
    (is_authorized <- perform (call_authorizedLoggers (address self)) ;;
     if negb is_authorized then
       owner <- perform call_owner ;;
       if negb (String.eqb (lower (address self)) (lower owner)) then
         logger WARNING
           ("Account " ++ address self ++ " is not authorized to log data") ;;
         raise (mk_exn ValueError
           ("Account " ++ address self ++ " is not authorized to log metrics"))
       else ret tt
     else ret tt)
    (fun e =>
       logger ERROR ("Error checking authorization: " ++ str_exn e) ;;
       raise e).

(** [AuditLogger.__init__] *)
Definition __init__ (contract_address private_key : string)
    (web3_provider_uri abi_path : string) : prog AuditLogger :=
  contract_abi <-
    catch (perform (open_json_load abi_path))
      (fun e =>
         if is_FileNotFoundError e then
           logger ERROR ("Contract ABI file not found at " ++ abi_path) ;;
           raise (mk_exn FileNotFoundError
             ("Contract ABI file not found: " ++ abi_path))
         else raise e) ;;
  checksummed <- perform (to_checksum_address contract_address) ;;
  perform (eth_contract checksummed contract_abi) ;;
  acct <- perform (account_from_key private_key) ;;
  let self :=
    {| web3 := web3_provider_uri;
       contract_address := checksummed;
       contract := (checksummed, contract_abi);
       account := acct;
       address := account_address acct |} in
  logger INFO ("Connected to contract at " ++ contract_address
               ++ " using account " ++ address self) ;;
  _check_authorization self ;;
  ret self.

(** [AuditLogger._send_transaction] *)
Definition _send_transaction (self : AuditLogger)
    (function : contract_function) (gas_limit : Z) : prog string :=
  catch
    (nonce <- perform (get_transaction_count (address self)) ;;
     cid <- perform chain_id ;;
     price <- perform gas_price ;;
     txn <- perform (build_transaction function
              {| chainId := cid; gas := gas_limit;
                 gasPrice := price; nonce := nonce |}) ;;
     signed_txn <- perform (sign_transaction txn (key (account self))) ;;
     tx_hash <- perform (send_raw_transaction (rawTransaction signed_txn)) ;;
     receipt <- perform (wait_for_transaction_receipt tx_hash) ;;
     if status receipt =? 1 then
       logger INFO ("Transaction successful: " ++ to_hex tx_hash) ;;
       ret (to_hex tx_hash)
     else
       logger ERROR ("Transaction failed: " ++ to_hex tx_hash) ;;
       raise (mk_exn Exception ("Transaction failed: " ++ to_hex tx_hash)))
    (fun e =>
       if is_ContractLogicError e then
         logger ERROR ("Contract logic error: " ++ str_exn e) ;;
         raise e
       else
         logger ERROR ("Error sending transaction: " ++ str_exn e) ;;
         raise e).

(** [AuditLogger.log_node_metrics] *)
Definition log_node_metrics (self : AuditLogger) (node_id : string)
    (memory_usage cpu_load allocated_memory : Z) (status : NodeStatus)
  : prog string :=
  logger INFO ("Logging metrics for node " ++ node_id ++ ": "
               ++ "CPU: " ++ str_int cpu_load ++ "%, Memory: "
               ++ str_int memory_usage ++ "/" ++ str_int allocated_memory
               ++ "MB, Status: " ++ name status) ;;
  let function :=
    logNodeMetrics node_id memory_usage cpu_load allocated_memory
      (int_of_NodeStatus status) in
  perform (contract_functions function) ;;
  _send_transaction self function gas_limit_default.

(** [AuditLogger.log_scaling_action] *)
Definition log_scaling_action (self : AuditLogger)
    (node_id action reason : string) : prog string :=
  logger INFO ("Logging scaling action for node " ++ node_id ++ ": "
               ++ action ++ " - " ++ reason) ;;
  let function := logScalingAction node_id action reason in
  perform (contract_functions function) ;;
  _send_transaction self function gas_limit_default.

(** The dict that the two readers build for one record. *)
Record NodeMetrics := mk_metrics {
  nodeId : value;
  timestamp : value;
  memoryUsage : value;
  cpuLoad : value;
  allocatedMemory : value;
  status_name : string;
  scaleAction : value;
  datetime : string
}.

(** [metrics[i]] on a tuple *)
Definition subscript (metrics : list value) (i : nat) : prog value :=
  match nth_error metrics i with
  | Some v => ret v
  | None => raise (mk_exn IndexError "tuple index out of range")
  end.

(** [NodeStatus(v).name] *)
Definition status_name_of (v : value) : prog string :=
  match NodeStatus_of_value v with
  | inr s => ret (name s)
  | inl e => raise e
  end.

(** [AuditLogger.get_latest_node_metrics] *)
Definition get_latest_node_metrics (self : AuditLogger) (node_id : string)
  : prog NodeMetrics :=
  catch
    (metrics <- perform (call_getLatestNodeMetrics node_id) ;;
     m0 <- subscript metrics 0 ;;
     m1 <- subscript metrics 1 ;;
     m2 <- subscript metrics 2 ;;
     m3 <- subscript metrics 3 ;;
     m4 <- subscript metrics 4 ;;
     m5 <- subscript metrics 5 ;;
     st <- status_name_of m5 ;;
     m6 <- subscript metrics 6 ;;
     dt <- perform (strftime_localtime m1) ;;
     ret {| nodeId := m0; timestamp := m1; memoryUsage := m2; cpuLoad := m3;
            allocatedMemory := m4; status_name := st; scaleAction := m6;
            datetime := dt |})
    (fun e =>
       logger ERROR ("Error getting latest metrics for " ++ node_id ++ ": "
                     ++ str_exn e) ;;
       raise e).

(** The body of the loop of [get_node_metrics_history]: one entry. *)
Definition history_entry (metrics : list value) : prog NodeMetrics :=
  m0 <- subscript metrics 0 ;;
  m1 <- subscript metrics 1 ;;
  m2 <- subscript metrics 2 ;;
  m3 <- subscript metrics 3 ;;
  m4 <- subscript metrics 4 ;;
  m5 <- subscript metrics 5 ;;
  st <- status_name_of m5 ;;
  m6 <- subscript metrics 6 ;;
  m1' <- subscript metrics 1 ;;
  dt <- perform (strftime_localtime m1') ;;
  ret {| nodeId := m0; timestamp := m1; memoryUsage := m2; cpuLoad := m3;
         allocatedMemory := m4; status_name := st; scaleAction := m6;
         datetime := dt |}.

(** [for metrics in metrics_list: ... result.append(entry)] *)
Fixpoint history_loop (metrics_list : list (list value))
    (result : list NodeMetrics) : prog (list NodeMetrics) :=
  match metrics_list with
  | [] => ret result
  | metrics :: rest =>
      entry <- history_entry metrics ;;
      history_loop rest (result ++ [entry])
  end.

(** [AuditLogger.get_node_metrics_history] *)
Definition get_node_metrics_history (self : AuditLogger) (node_id : string)
    (start_index count : Z) : prog (list NodeMetrics) :=
  catch
    (metrics_list <-
       perform (call_getNodeMetricsHistory node_id start_index count) ;;
     history_loop metrics_list [])
    (fun e =>
       logger ERROR ("Error getting metrics history for " ++ node_id ++ ": "
                     ++ str_exn e) ;;
       raise e).

(** [start_index=0], [count=10] *)
Definition start_index_default : Z := 0.
Definition count_default : Z := 10.

(** ** A ledger to run the client against *)

Module Ledger.

(** A confirmed transaction of the chain. *)
Record Confirmed := mk_confirmed {
  c_hash : list byte;
  c_sender : string;
  c_nonce : Z;
  c_data : option contract_function;
  c_time : Z;
  c_ok : bool
}.

(** Modelled from the spec: the ledger network, the contract's on-chain
    logic and the local environment, none of which is part of the client.
    The ledger is an append-only [chain] of confirmed transactions; the
    nonce of an address is the count of its confirmed transactions; a
    broadcast transaction waits in [pool] and is included only with the
    next nonce of its sender, otherwise its receipt never comes.
    [schedule] lists, for each coming request, the senders whose own
    transfers (of other processes, possibly under the same identity)
    confirm just before it. *)
Record World := mk_world {
  files : list (string * ABI);
  keyring : list (string * string);
  owner : string;
  authorizedLoggers : list string;
  network_id : Z;
  suggested_gas_price : Z;
  clock : Z;
  chain : list Confirmed;
  pool : list RawTransaction;
  schedule : list (list string)
}.

Definition set_schedule (w : World) (s : list (list string)) : World :=
  mk_world (files w) (keyring w) (owner w) (authorizedLoggers w)
    (network_id w) (suggested_gas_price w) (clock w) (chain w) (pool w) s.

Definition set_pool (w : World) (p : list RawTransaction) : World :=
  mk_world (files w) (keyring w) (owner w) (authorizedLoggers w)
    (network_id w) (suggested_gas_price w) (clock w) (chain w) p (schedule w).

(** A new block holding the one transaction [t]. *)
Definition append (w : World) (t : Confirmed) : World :=
  mk_world (files w) (keyring w) (owner w) (authorizedLoggers w)
    (network_id w) (suggested_gas_price w) (clock w + 1) (chain w ++ [t])
    (pool w) (schedule w).

Fixpoint assoc {A : Type} (k : string) (l : list (string * A)) : option A :=
  match l with
  | [] => None
  | (k', a) :: r => if String.eqb k k' then Some a else assoc k r
  end.

(** Modelled from the spec: [getNonce(address)], the count of confirmed
    transactions from the address. *)
Definition tx_count (c : list Confirmed) (a : string) : Z :=
  Z.of_nat (List.length (filter (fun t => String.eqb (c_sender t) a) c)).

(** A transfer of another process under the identity [a] confirms. *)
Definition external (w : World) (a : string) : World :=
  append w (mk_confirmed [] a (tx_count (chain w) a) None (clock w) true).

(** What the network does on its own before the next request is served. *)
Definition tick (w : World) : World :=
  match schedule w with
  | [] => w
  | senders :: rest => fold_left external senders (set_schedule w rest)
  end.

(** Modelled from the spec: the write gate of the contract, the registry
    of approved loggers with the owner bypass. *)
Definition authorized (w : World) (a : string) : bool :=
  existsb (String.eqb a) (authorizedLoggers w)
  || String.eqb (lower a) (lower (owner w)).

(** Modelled from the spec: the ranges of a record, [cpuLoadPercent] in
    0..100, unsigned sizes and a status among the three of the enum. *)
Definition valid_call (f : contract_function) : bool :=
  match f with
  | logNodeMetrics _ m c a s =>
      (0 <=? m) && (0 <=? c) && (c <=? 100) && (0 <=? a)
      && (0 <=? s) && (s <=? 2)
  | logScalingAction _ _ _ => true
  end.

(** The tuple the contract stores for a successful [logNodeMetrics]. *)
Definition stored (node_id : string) (t : Confirmed) : list (list value) :=
  match c_data t with
  | Some (logNodeMetrics n m c a s) =>
      if c_ok t && String.eqb n node_id then
        [[VStr n; VInt (c_time t); VInt m; VInt c; VInt a; VInt s; VStr ""]]
      else []
  | _ => []
  end.

(** Modelled from the spec: the records of a node, oldest first. *)
Definition node_history (c : list Confirmed) (node_id : string)
  : list (list value) :=
  flat_map (stored node_id) c.

(** Modelled from the spec: [getLatestNodeMetrics], the empty tuple when the
    node has no record. *)
Definition latest (c : list Confirmed) (node_id : string) : list value :=
  last (node_history c node_id) [].

(** Modelled from the spec: [getNodeMetricsHistory], at most [count]
    records from [start_index] on, only what exists. *)
Definition slice (c : list Confirmed) (node_id : string)
    (start_index count : Z) : list (list value) :=
  firstn (Z.to_nat count) (skipn (Z.to_nat start_index) (node_history c node_id)).

(** The hash of the [i]-th broadcast. *)
Definition hash_of (i : nat) : list byte := repeat "001"%byte (S i).

Definition eqb_bytes (a b : list byte) : bool :=
  if list_eq_dec Byte.byte_eq_dec a b then true else false.

Definition is_address (a : string) : bool :=
  (String.length a =? 42)%nat && String.prefix "0x" a.

Definition receipt_of (t : Confirmed) : Receipt :=
  {| status := if c_ok t then 1 else 0; transactionHash := c_hash t |}.

Definition not_in_chain (h : list byte) : exn :=
  mk_exn TimeExhausted
    ("Transaction " ++ to_hex h ++ " is not in the chain after 120 seconds").

(** The receipt of [h]: of the block that holds it, or of the block it
    enters now when its nonce is the next one of its sender. *)
Definition wait (w : World) (h : list byte) : result Receipt * World :=
  match find (fun t => eqb_bytes (c_hash t) h) (chain w) with
  | Some t => (inr (receipt_of t), w)
  | None =>
      match nth_error (pool w) (pred (List.length h)) with
      | Some raw =>
          match assoc (raw_key raw) (keyring w) with
          | Some sender =>
              let n := nonce (tx_params (raw_txn raw)) in
              if eqb_bytes (hash_of (pred (List.length h))) h
                 && (n =? tx_count (chain w) sender) then
                let t := mk_confirmed h sender n (Some (tx_data (raw_txn raw)))
                           (clock w)
                           (authorized w sender
                            && valid_call (tx_data (raw_txn raw))) in
                (inr (receipt_of t), append w t)
              else (inl (not_in_chain h), w)
          | None => (inl (not_in_chain h), w)
          end
      | None => (inl (not_in_chain h), w)
      end
  end.

(** One request served on the state the network has reached. *)
Definition serve (q : request) (w : World) : result (reply_ty q) * World :=
  match q as q0 return result (reply_ty q0) * World with
  | open_json_load p =>
      match assoc p (files w) with
      | Some abi => (inr abi, w)
      | None =>
          (inl (mk_exn FileNotFoundError
                  ("[Errno 2] No such file or directory: '" ++ p ++ "'")), w)
      end
  | to_checksum_address a =>
      if is_address a then (inr a, w)
      else (inl (mk_exn ValueError ("Unknown format '" ++ a ++ "'")), w)
  | eth_contract _ _ => (inr tt, w)
  | account_from_key k =>
      match assoc k (keyring w) with
      | Some a => (inr (mk_account a k), w)
      | None => (inl (mk_exn ValueError "The private key is not valid"), w)
      end
  | call_authorizedLoggers a => (inr (existsb (String.eqb a) (authorizedLoggers w)), w)
  | call_owner => (inr (owner w), w)
  | call_getLatestNodeMetrics n => (inr (latest (chain w) n), w)
  | call_getNodeMetricsHistory n s c =>
      if (s <? 0) || (c <? 0) then
        (inl (mk_exn (OtherException "Web3ValidationError")
                "Could not identify the intended function"), w)
      else (inr (slice (chain w) n s c), w)
  | contract_functions _ => (inr tt, w)
  | get_transaction_count a => (inr (tx_count (chain w) a), w)
  | chain_id => (inr (network_id w), w)
  | gas_price => (inr (suggested_gas_price w), w)
  | build_transaction f p => (inr (mk_txn f p), w)
  | sign_transaction t k => (inr (mk_signed (mk_raw t k)), w)
  | send_raw_transaction raw =>
      match assoc (raw_key raw) (keyring w) with
      | Some _ =>
          (inr (hash_of (List.length (pool w))), set_pool w (pool w ++ [raw]))
      | None => (inl (mk_exn ValueError "invalid sender"), w)
      end
  | wait_for_transaction_receipt h => wait w h
  | strftime_localtime (VInt z) => (inr ("@" ++ str_int z), w)
  | strftime_localtime (VStr _) =>
      (inl (mk_exn TypeError "an integer is required (got type str)"), w)
  end.

Definition handle : handler World := fun q w => serve q (tick w).

End Ledger.

(** ** The vocabulary of the statements *)

(** The result, the final world and the trace of a run. *)
Definition outcome {W R : Type} (x : result R * W * trace) : result R :=
  fst (fst x).
Definition final {W R : Type} (x : result R * W * trace) : W := snd (fst x).
Definition trace_of {W R : Type} (x : result R * W * trace) : trace := snd x.

(** The requests of a submission up to the broadcast and the wait. *)
Definition submission_requests (self : AuditLogger)
    (function : contract_function) (gas_limit : Z) (n c g : Z)
    (txn : Transaction) (s : SignedTransaction) (tx_hash : list byte)
  : trace :=
  [ Req (get_transaction_count (address self));
    Req chain_id;
    Req gas_price;
    Req (build_transaction function
           {| chainId := c; gas := gas_limit; gasPrice := g; nonce := n |});
    Req (sign_transaction txn (key (account self)));
    Req (send_raw_transaction (rawTransaction s));
    Req (wait_for_transaction_receipt tx_hash) ].

(** The log record of the handler of [_send_transaction]. *)
Definition reported (e : exn) : item :=
  if is_ContractLogicError e then
    Logged ERROR ("Contract logic error: " ++ str_exn e)
  else Logged ERROR ("Error sending transaction: " ++ str_exn e).

Definition failed (tx_hash : list byte) : exn :=
  mk_exn Exception ("Transaction failed: " ++ to_hex tx_hash).

(** How a submission whose transaction is broadcast ends, by what the wait
    for the receipt gives. *)
Definition settled {W : Type} (self : AuditLogger)
    (function : contract_function) (gas_limit : Z) (n c g : Z)
    (txn : Transaction) (s : SignedTransaction) (tx_hash : list byte)
    (x : result Receipt) (w7 : W)
  : result string * W * trace :=
  let sent := submission_requests self function gas_limit n c g txn s tx_hash in
  match x with
  | inr receipt =>
      if status receipt =? 1 then
        (inr (to_hex tx_hash), w7,
         (sent
          ++ [Logged INFO ("Transaction successful: " ++ to_hex tx_hash)])%list)
      else
        (inl (failed tx_hash), w7,
         (sent
          ++ [Logged ERROR ("Transaction failed: " ++ to_hex tx_hash);
              reported (failed tx_hash)])%list)
  | inl e => (inl e, w7, (sent ++ [reported e])%list)
  end.

(** The error of the gate. *)
Definition unauthorized (a : string) : exn :=
  mk_exn ValueError ("Account " ++ a ++ " is not authorized to log metrics").

(** The error of [NodeStatus] on an integer that is no member. *)
Definition invalid_status (z : Z) : exn :=
  mk_exn ValueError (str_int z ++ " is not a valid NodeStatus").

(** The first log record of [log_node_metrics]. *)
Definition logging_metrics (node_id : string)
    (memory_usage cpu_load allocated_memory : Z) (st : NodeStatus) : item :=
  Logged INFO ("Logging metrics for node " ++ node_id ++ ": "
               ++ "CPU: " ++ str_int cpu_load ++ "%, Memory: "
               ++ str_int memory_usage ++ "/" ++ str_int allocated_memory
               ++ "MB, Status: " ++ name st).

(** The entry [e] shows the tuple [m]: field by field, the status by its
    name. *)
Definition shows (e : NodeMetrics) (m : list value) : Prop :=
  exists s : NodeStatus,
    m = [nodeId e; timestamp e; memoryUsage e; cpuLoad e; allocatedMemory e;
         VInt (int_of_NodeStatus s); scaleAction e]
    /\ status_name e = name s.

Section LedgerVocabulary.

Import Ledger.

(** A transfer of another process: no contract call, no hash of a
    broadcast of this client, a sender among [senders]. *)
Definition transfer_of (senders : list string) (t : Confirmed) : Prop :=
  c_data t = None /\ c_hash t = [] /\ In (c_sender t) senders.

(** What no transfer changes. *)
Record frame (w w' : World) : Prop := mk_frame {
  frame_files : files w' = files w;
  frame_keyring : keyring w' = keyring w;
  frame_owner : owner w' = owner w;
  frame_loggers : authorizedLoggers w' = authorizedLoggers w;
  frame_network : network_id w' = network_id w;
  frame_price : suggested_gas_price w' = suggested_gas_price w;
  frame_pool : pool w' = pool w
}.

(** Every successful call of the chain is within the ranges of the
    contract, as it is for the calls the ledger includes itself. *)
Definition valid_chain (c : list Confirmed) : Prop :=
  Forall (fun t => c_ok t = true ->
                forall f, c_data t = Some f -> valid_call f = true) c.

(** A tuple as the contract stores it. *)
Definition stored_shape (m : list value) : Prop :=
  exists n t mu cl am s sa,
    m = [VStr n; VInt t; VInt mu; VInt cl; VInt am; VInt s; VStr sa]
    /\ 0 <= s <= 2.

(** The world after [k] requests that change nothing themselves. *)
Definition ticks (k : nat) (w : World) : World := Nat.iter k tick w.

(** The nonce the gateway reports when the submission asks for it. *)
Definition fetched (self : AuditLogger) (w : World) : Z :=
  tx_count (chain (tick w)) (address self).

(** The transaction a submission builds and signs in the world [w]. *)
Definition built (self : AuditLogger) (function : contract_function)
    (gas_limit : Z) (w : World) : Transaction :=
  mk_txn function
    {| chainId := network_id w; gas := gas_limit;
       gasPrice := suggested_gas_price w; nonce := fetched self w |}.

Definition signed (self : AuditLogger) (function : contract_function)
    (gas_limit : Z) (w : World) : RawTransaction :=
  mk_raw (built self function gas_limit w) (key (account self)).

(** The world the broadcast leaves. *)
Definition broadcast (self : AuditLogger) (function : contract_function)
    (gas_limit : Z) (w : World) : World :=
  set_pool (ticks 6 w) (pool w ++ [signed self function gas_limit w]).

Definition invalid_sender : exn := mk_exn ValueError "invalid sender".

(** Each confirmed transaction carries, as its nonce, the count of the
    transactions of its sender that were confirmed before it. *)
Inductive chain_ok : list Confirmed -> Prop :=
| chain_ok_nil : chain_ok []
| chain_ok_snoc (c : list Confirmed) (t : Confirmed) :
    chain_ok c -> c_nonce t = tx_count c (c_sender t) ->
    chain_ok (c ++ [t]).

(** The hashes of the chain are those of broadcasts below [i]. *)
Definition hashes_below (i : nat) (c : list Confirmed) : Prop :=
  Forall (fun t => (List.length (c_hash t) <= i)%nat) c.

(** The invariant of the ledger. *)
Record consistent (w : World) : Prop := mk_consistent {
  cons_chain : chain_ok (chain w);
  cons_hashes : hashes_below (List.length (pool w)) (chain w)
}.

(** The transaction that enters the chain. *)
Definition included (w : World) (h : list byte) (sender : string)
    (raw : RawTransaction) : Confirmed :=
  mk_confirmed h sender (nonce (tx_params (raw_txn raw)))
    (Some (tx_data (raw_txn raw))) (clock w)
    (authorized w sender && valid_call (tx_data (raw_txn raw))).

(** No other process confirms a transaction of [a] while the schedule
    lasts. *)
Definition quiet (a : string) (sched : list (list string)) : Prop :=
  Forall (fun senders => ~ In a senders) sched.

End LedgerVocabulary.

(** ** Concrete worlds *)

Module Demo.

Import Ledger.

Definition alice : string := "0xAbCdef0123456789abcdef0123456789abcdef01".
Definition bob : string := "0x2222222222222222222222222222222222222222".
Definition carol : string := "0x3333333333333333333333333333333333333333".
Definition deployed : string := "0x00000000000000000000000000000000000000c0".
Definition abi_file : string := "contracts/abi/AuditLogger.json".
Definition uri : string := "http://localhost:8545".

(** A fresh deployment: [alice] owns the contract (the registry spells her
    address in lower case), [carol] is an approved logger, [bob] is
    neither. *)
Definition genesis : World :=
  {| files := [(abi_file, "[]")];
     keyring := [("ka", alice); ("kb", bob); ("kc", carol)];
     owner := "0xabcdef0123456789abcdef0123456789abcdef01";
     authorizedLoggers := [carol];
     network_id := 1337;
     suggested_gas_price := 20;
     clock := 1700000000;
     chain := [];
     pool := [];
     schedule := [] |}.

Definition client (a k : string) : AuditLogger :=
  {| web3 := uri;
     contract_address := deployed;
     contract := (deployed, "[]");
     account := mk_account a k;
     address := a |}.

(** The world after the requests [qs], served in turn. *)
Definition after (qs : list request) (w : World) : World :=
  fold_left (fun w q => snd (handle q w)) qs w.

Definition scale_up : contract_function :=
  logScalingAction "node-1" "scale_up" "High CPU load detected by RL model".

(** Another process spends the next nonce of [alice] just before the
    seventh request, the wait for the receipt. *)
Definition raced : World :=
  set_schedule genesis [[]; []; []; []; []; []; [alice]].

(** A node with three records. *)
Definition recorded (n t : Z) (s : Z) : Confirmed :=
  mk_confirmed [] carol n (Some (logNodeMetrics "node-1" 512 35 1024 s)) t true.

Definition three_records : World :=
  {| files := files genesis;
     keyring := keyring genesis;
     owner := owner genesis;
     authorizedLoggers := authorizedLoggers genesis;
     network_id := 1337;
     suggested_gas_price := 20;
     clock := 1700000003;
     chain := [recorded 0 1700000000 0; recorded 1 1700000001 1;
               recorded 2 1700000002 2];
     pool := [];
     schedule := [] |}.

(** A contract whose enum has grown a fourth member. *)
Definition foreign_status : World :=
  {| files := files genesis;
     keyring := keyring genesis;
     owner := owner genesis;
     authorizedLoggers := authorizedLoggers genesis;
     network_id := 1337;
     suggested_gas_price := 20;
     clock := 1700000001;
     chain := [recorded 0 1700000000 7];
     pool := [];
     schedule := [] |}.


(** Between two submissions of [alice], another process of hers and one of
    [bob] confirm a transfer each. *)
Definition shared : World :=
  set_schedule genesis [[]; []; []; []; []; []; []; [alice; bob]].

(** Another process spends the next nonce of [alice] after she has
    fetched it and just before her broadcast, the sixth request. *)
Definition overtaken : World :=
  set_schedule genesis [[]; []; []; []; []; [alice]].

(** A submission of [alice] on the fresh deployment. *)
Definition scale_up_txn : Transaction :=
  mk_txn scale_up
    {| chainId := 1337; gas := 300000; gasPrice := 20; nonce := 0 |}.

Definition scale_up_raw : RawTransaction := mk_raw scale_up_txn "ka".

Definition submission : list request :=
  [ get_transaction_count alice; chain_id; gas_price;
    build_transaction scale_up (tx_params scale_up_txn);
    sign_transaction scale_up_txn "ka";
    send_raw_transaction scale_up_raw;
    wait_for_transaction_receipt (hash_of 0) ].

(** The submission of [alice] that loses the race for its nonce. *)
Definition out_of_time : exn :=
  mk_exn TimeExhausted "Transaction 0x01 is not in the chain after 120 seconds".

Definition foreign_tuple : list value :=
  [VStr "node-1"; VInt 1700000000; VInt 512; VInt 35; VInt 1024; VInt 7;
   VStr ""].

(** Metrics outside every range, which the client passes on and the
    contract refuses. *)
Definition wild : contract_function := logNodeMetrics "node-1" (-5) 250 7 2.

Definition wild_txn : Transaction :=
  mk_txn wild {| chainId := 1337; gas := 300000; gasPrice := 20; nonce := 0 |}.

Definition wild_requests : list request :=
  [ contract_functions wild;
    get_transaction_count alice; chain_id; gas_price;
    build_transaction wild (tx_params wild_txn);
    sign_transaction wild_txn "ka";
    send_raw_transaction (mk_raw wild_txn "ka");
    wait_for_transaction_receipt (hash_of 0) ].

End Demo.

(** ** Reads, and gateways that fail *)

(** The requests of the two readers: the two contract calls and the
    clock. *)
Definition is_read (q : request) : bool :=
  match q with
  | call_getLatestNodeMetrics _ => true
  | call_getNodeMetricsHistory _ _ _ => true
  | strftime_localtime _ => true
  | _ => false
  end.

(** The first log record of [log_scaling_action]. *)
Definition logging_scaling (node_id action reason : string) : item :=
  Logged INFO ("Logging scaling action for node " ++ node_id ++ ": "
               ++ action ++ " - " ++ reason).

(** The log record of the handler of [get_latest_node_metrics]. *)
Definition latest_failed (node_id : string) (e : exn) : item :=
  Logged ERROR ("Error getting latest metrics for " ++ node_id ++ ": "
                ++ str_exn e).

(** Equality of two strings up to the case of their ASCII letters, letter
    by letter: the comparison of addresses that the gate is to make. *)
Definition is_upper (c : ascii) : bool :=
  ((65 <=? N_of_ascii c) && (N_of_ascii c <=? 90))%N.

Definition same_letter (c d : ascii) : bool :=
  (N_of_ascii c =? N_of_ascii d)%N
  || (is_upper c && (N_of_ascii d =? N_of_ascii c + 32)%N)
  || (is_upper d && (N_of_ascii c =? N_of_ascii d + 32)%N).

Fixpoint same_ignoring_case (a b : string) : bool :=
  match a, b with
  | EmptyString, EmptyString => true
  | String c a', String d b' => same_letter c d && same_ignoring_case a' b'
  | _, _ => false
  end.

(** The error record of the handler of [get_node_metrics_history]. *)
Definition history_failed (node_id : string) (e : exn) : item :=
  Logged ERROR ("Error getting metrics history for " ++ node_id ++ ": "
                ++ str_exn e).

Module Stub.

(** The ledger behind a node that cannot answer [owner()]. *)
Definition ownerless : handler Ledger.World :=
  fun q w =>
    match q as q0 return result (reply_ty q0) * Ledger.World with
    | call_owner =>
        (inl (mk_exn (OtherException "BadFunctionCallOutput")
                "Could not transact with/call contract function"), w)
    | q0 => Ledger.handle q0 w
    end.

(** A node whose second record of three has a status the enum does not
    know, the newest being in order. *)
Definition mid_status : Ledger.World :=
  {| Ledger.files := Ledger.files Demo.genesis;
     Ledger.keyring := Ledger.keyring Demo.genesis;
     Ledger.owner := Ledger.owner Demo.genesis;
     Ledger.authorizedLoggers := Ledger.authorizedLoggers Demo.genesis;
     Ledger.network_id := 1337;
     Ledger.suggested_gas_price := 20;
     Ledger.clock := 1700000003;
     Ledger.chain := [Demo.recorded 0 1700000000 0;
                      Demo.recorded 1 1700000001 7;
                      Demo.recorded 2 1700000002 2];
     Ledger.pool := [];
     Ledger.schedule := [] |}.

Definition unreachable : exn :=
  mk_exn (OtherException "ConnectionError") "Connection refused".

(** No file, no node: every request raises. *)
Definition offline : handler unit := fun q w => (inl unreachable, w).

(** A node that answers the latest record of every node with [metrics]
    and whose clock takes integers only. *)
Definition canned (metrics : list value) : handler unit :=
  fun q w =>
    match q as q0 return result (reply_ty q0) * unit with
    | call_getLatestNodeMetrics _ => (inr metrics, w)
    | strftime_localtime (VInt z) => (inr ("@" ++ str_int z), w)
    | strftime_localtime (VStr _) =>
        (inl (mk_exn TypeError "an integer is required (got type str)"), w)
    | _ => (inl unreachable, w)
    end.

(** The ledger behind a binding that refuses negative integers, as one for
    unsigned arguments does. *)
Definition mismatched : exn :=
  mk_exn (OtherException "MismatchedABI")
    "Could not identify the intended function with name `logNodeMetrics`".

Definition unsigned_binding : handler Ledger.World :=
  fun q w =>
    match q as q0 return result (reply_ty q0) * Ledger.World with
    | contract_functions (logNodeMetrics n m c a s) =>
        if (m <? 0) || (c <? 0) || (a <? 0) || (s <? 0) then
          (inl mismatched, w)
        else Ledger.handle (contract_functions (logNodeMetrics n m c a s)) w
    | q0 => Ledger.handle q0 w
    end.

(** The ledger behind an interface description that has no
    [logScalingAction]: binding it raises, every other request is served. *)
Definition unlisted : exn :=
  mk_exn (OtherException "ABIFunctionNotFound")
    "The function 'logScalingAction' was not found in this contract's abi.".

Definition metrics_only : handler Ledger.World :=
  fun q w =>
    match q as q0 return result (reply_ty q0) * Ledger.World with
    | contract_functions (logScalingAction _ _ _) => (inl unlisted, w)
    | q0 => Ledger.handle q0 w
    end.

(** A tuple whose timestamp is a string. *)
Definition undated : list value :=
  [VStr "node-1"; VStr "soon"; VInt 512; VInt 35; VInt 1024; VInt 0; VStr ""].

(** The tuples of the node with three records, oldest first. *)
Definition record_tuple (t s : Z) : list value :=
  [VStr "node-1"; VInt t; VInt 512; VInt 35; VInt 1024; VInt s; VStr ""].

Definition three_tuples : list (list value) :=
  [record_tuple 1700000000 0; record_tuple 1700000001 1;
   record_tuple 1700000002 2].

(** The record the reader builds from the newest of them. *)
Definition newest : NodeMetrics :=
  {| nodeId := VStr "node-1"; timestamp := VInt 1700000002;
     memoryUsage := VInt 512; cpuLoad := VInt 35;
     allocatedMemory := VInt 1024; status_name := "Alert";
     scaleAction := VStr ""; datetime := "@1700000002" |}.

End Stub.

(** ** How runs compose *)

Section Runs.

Context {W : Type} (h : handler W).

Lemma run_bind {A B : Type} (p : prog A) (f : A -> prog B) (w : W) :
  run h (bind p f) w =
  match run h p w with
  | (inr a, w1, t1) =>
      let '(r, w2, t2) := run h (f a) w1 in (r, w2, (t1 ++ t2)%list)
  | (inl e, w1, t1) => (inl e, w1, t1)
  end.
Proof.
  revert w. induction p as [a | e | l m k IH | q k IH]; intros w; cbn.
  - destruct (run h (f a) w) as [[r w2] t2]. reflexivity.
  - reflexivity.
  - change (prog_bind k f) with (bind k f). rewrite IH.
    destruct (run h k w) as [[[e | a] w1] t1]; [reflexivity |].
    destruct (run h (f a) w1) as [[r w2] t2]. reflexivity.
  - destruct (h q w) as [x w1].
    change (prog_bind (k x) f) with (bind (k x) f). rewrite IH.
    destruct (run h (k x) w1) as [[[e | a] w2] t1]; [reflexivity |].
    destruct (run h (f a) w2) as [[r w3] t2]. reflexivity.
Qed.

Lemma run_catch {A : Type} (p : prog A) (hnd : exn -> prog A) (w : W) :
  run h (catch p hnd) w =
  match run h p w with
  | (inr a, w1, t1) => (inr a, w1, t1)
  | (inl e, w1, t1) =>
      let '(r, w2, t2) := run h (hnd e) w1 in (r, w2, (t1 ++ t2)%list)
  end.
Proof.
  revert w. induction p as [a | e | l m k IH | q k IH]; intros w; cbn.
  - reflexivity.
  - destruct (run h (hnd e) w) as [[r w2] t2]. reflexivity.
  - change (prog_catch k hnd) with (catch k hnd). rewrite IH.
    destruct (run h k w) as [[[e | a] w1] t1]; [| reflexivity].
    destruct (run h (hnd e) w1) as [[r w2] t2]. reflexivity.
  - destruct (h q w) as [x w1].
    change (prog_catch (k x) hnd) with (catch (k x) hnd). rewrite IH.
    destruct (run h (k x) w1) as [[[e | a] w2] t1]; [| reflexivity].
    destruct (run h (hnd e) w2) as [[r w3] t2]. reflexivity.
Qed.

Lemma run_perform (q : request) (w : W) :
  run h (perform q) w = (fst (h q w), snd (h q w), [Req q]).
Proof.
  unfold perform. cbn. destruct (h q w) as [[e | a] w1]; reflexivity.
Qed.

End Runs.

Lemma writes_app (t1 t2 : trace) : writes (t1 ++ t2)%list = (writes t1 ++ writes t2)%list.
Proof.
  unfold writes, requests. rewrite flat_map_app, filter_app. reflexivity.
Qed.

(** ** C8: the status enum and its integer encoding *)

(** C8. Each of the three members of [NodeStatus] goes to its contract
    integer, 0 for Normal, 1 for Scaling and 2 for Alert, and
    [NodeStatus] of that integer is the member again. *)
Theorem NodeStatus_roundtrip (s : NodeStatus) :
  NodeStatus_of_value (VInt (int_of_NodeStatus s)) = inr s
  /\ int_of_NodeStatus Normal = 0
  /\ int_of_NodeStatus Scaling = 1
  /\ int_of_NodeStatus Alert = 2.
Proof.
  repeat split; destruct s; reflexivity.
Qed.

(** Decoding accepts exactly the three integers of the encoding. *)
Lemma NodeStatus_of_value_inr (v : value) (s : NodeStatus) :
  NodeStatus_of_value v = inr s -> v = VInt (int_of_NodeStatus s).
Proof.
  destruct v as [str | z]; cbn; [discriminate |].
  destruct z as [| [p | [p | p |] |] | p]; try discriminate;
    intros H; inversion H; reflexivity.
Qed.

Lemma NodeStatus_of_value_unknown (z : Z) :
  ~ (0 <= z <= 2) ->
  NodeStatus_of_value (VInt z)
  = inl (mk_exn ValueError (str_int z ++ " is not a valid NodeStatus")).
Proof.
  intros H. destruct z as [| [p | p |] | p]; try reflexivity; try lia.
  - destruct p; try reflexivity; lia.
Qed.

(** ** C3, C7: one submission *)

Section Submission.

Context {W : Type} (h : handler W).
Variables (self : AuditLogger) (function : contract_function) (gas_limit : Z).

Lemma send_transaction_run
    (w w1 w2 w3 w4 w5 w6 w7 : W) (n c g : Z) (txn : Transaction)
    (s : SignedTransaction) (tx_hash : list byte) (x : result Receipt) :
  h (get_transaction_count (address self)) w = (inr n, w1) ->
  h chain_id w1 = (inr c, w2) ->
  h gas_price w2 = (inr g, w3) ->
  h (build_transaction function
       {| chainId := c; gas := gas_limit; gasPrice := g; nonce := n |}) w3
    = (inr txn, w4) ->
  h (sign_transaction txn (key (account self))) w4 = (inr s, w5) ->
  h (send_raw_transaction (rawTransaction s)) w5 = (inr tx_hash, w6) ->
  h (wait_for_transaction_receipt tx_hash) w6 = (x, w7) ->
  run h (_send_transaction self function gas_limit) w
  = settled self function gas_limit n c g txn s tx_hash x w7.
Proof.
  intros H1 H2 H3 H4 H5 H6 H7.
  unfold _send_transaction. cbn.
  rewrite H1; cbn. rewrite H2; cbn. rewrite H3; cbn. rewrite H4; cbn.
  rewrite H5; cbn. rewrite H6; cbn. rewrite H7; cbn.
  destruct x as [e | receipt]; cbn.
  - unfold reported. destruct (is_ContractLogicError e); reflexivity.
  - destruct (status receipt =? 1); reflexivity.
Qed.

(** The run of a submission whose broadcast is refused. *)
Lemma send_transaction_refused
    (w w1 w2 w3 w4 w5 w6 : W) (n c g : Z) (txn : Transaction)
    (s : SignedTransaction) (e : exn) :
  h (get_transaction_count (address self)) w = (inr n, w1) ->
  h chain_id w1 = (inr c, w2) ->
  h gas_price w2 = (inr g, w3) ->
  h (build_transaction function
       {| chainId := c; gas := gas_limit; gasPrice := g; nonce := n |}) w3
    = (inr txn, w4) ->
  h (sign_transaction txn (key (account self))) w4 = (inr s, w5) ->
  h (send_raw_transaction (rawTransaction s)) w5 = (inl e, w6) ->
  run h (_send_transaction self function gas_limit) w
  = (inl e, w6,
     (removelast (submission_requests self function gas_limit n c g txn s [])
      ++ [reported e])%list).
Proof.
  intros H1 H2 H3 H4 H5 H6.
  unfold _send_transaction. cbn.
  rewrite H1; cbn. rewrite H2; cbn. rewrite H3; cbn. rewrite H4; cbn.
  rewrite H5; cbn. rewrite H6; cbn.
  unfold reported. destruct (is_ContractLogicError e); reflexivity.
Qed.

(** C3. A submission asks the gateway for the nonce, the chain id and the
    gas price, builds the transaction from the call, the given gas limit
    and these three replies, signs it with the key of the identity,
    broadcasts it and waits for the receipt, in this order and each once;
    with status 1 it returns the hash of the transaction, with any other
    status it raises "Transaction failed".  The default gas limit is
    300000. *)
Theorem send_transaction_sequence
    (w w1 w2 w3 w4 w5 w6 w7 : W) (n c g : Z) (txn : Transaction)
    (s : SignedTransaction) (tx_hash : list byte) (receipt : Receipt) :
  h (get_transaction_count (address self)) w = (inr n, w1) ->
  h chain_id w1 = (inr c, w2) ->
  h gas_price w2 = (inr g, w3) ->
  h (build_transaction function
       {| chainId := c; gas := gas_limit; gasPrice := g; nonce := n |}) w3
    = (inr txn, w4) ->
  h (sign_transaction txn (key (account self))) w4 = (inr s, w5) ->
  h (send_raw_transaction (rawTransaction s)) w5 = (inr tx_hash, w6) ->
  h (wait_for_transaction_receipt tx_hash) w6 = (inr receipt, w7) ->
  gas_limit_default = 300000
  /\ run h (_send_transaction self function gas_limit) w
     = if status receipt =? 1 then
         (inr (to_hex tx_hash), w7,
          (submission_requests self function gas_limit n c g txn s tx_hash
           ++ [Logged INFO ("Transaction successful: " ++ to_hex tx_hash)])%list)
       else
         (inl (mk_exn Exception ("Transaction failed: " ++ to_hex tx_hash)),
          w7,
          (submission_requests self function gas_limit n c g txn s tx_hash
           ++ [Logged ERROR ("Transaction failed: " ++ to_hex tx_hash);
               Logged ERROR ("Error sending transaction: "
                             ++ "Transaction failed: " ++ to_hex tx_hash)])%list).
Proof.
  intros H1 H2 H3 H4 H5 H6 H7. split; [reflexivity |].
  rewrite (send_transaction_run H1 H2 H3 H4 H5 H6 H7). unfold settled, failed.
  destruct (status receipt =? 1); reflexivity.
Qed.

(** C7. When the wait for the receipt runs out of time, the submission
    raises the very exception of the wait: it returns no hash and does not
    raise "Transaction failed".  Reporting it is one log record, after
    which the world is the one the wait left: the broadcast before the
    wait is the only write of the run. *)
Theorem send_transaction_timeout
    (w w1 w2 w3 w4 w5 w6 w7 : W) (n c g : Z) (txn : Transaction)
    (s : SignedTransaction) (tx_hash : list byte) (e : exn) :
  h (get_transaction_count (address self)) w = (inr n, w1) ->
  h chain_id w1 = (inr c, w2) ->
  h gas_price w2 = (inr g, w3) ->
  h (build_transaction function
       {| chainId := c; gas := gas_limit; gasPrice := g; nonce := n |}) w3
    = (inr txn, w4) ->
  h (sign_transaction txn (key (account self))) w4 = (inr s, w5) ->
  h (send_raw_transaction (rawTransaction s)) w5 = (inr tx_hash, w6) ->
  h (wait_for_transaction_receipt tx_hash) w6 = (inl e, w7) ->
  exn_cls e = TimeExhausted ->
  run h (_send_transaction self function gas_limit) w
  = (inl e, w7,
     (submission_requests self function gas_limit n c g txn s tx_hash
      ++ [Logged ERROR ("Error sending transaction: " ++ str_exn e)])%list)
  /\ exn_cls e <> Exception
  /\ writes (trace_of (run h (_send_transaction self function gas_limit) w))
     = [send_raw_transaction (rawTransaction s)].
Proof.
  intros H1 H2 H3 H4 H5 H6 H7 He.
  assert (Hrun : run h (_send_transaction self function gas_limit) w
    = (inl e, w7,
       (submission_requests self function gas_limit n c g txn s tx_hash
        ++ [Logged ERROR ("Error sending transaction: " ++ str_exn e)])%list)).
  { rewrite (send_transaction_run H1 H2 H3 H4 H5 H6 H7).
    unfold settled, reported, is_ContractLogicError. rewrite He.
    reflexivity. }
  split; [exact Hrun |]. split; [rewrite He; discriminate |].
  rewrite Hrun. reflexivity.
Qed.

End Submission.

(** ** The comparison of the gate ignores the case of the letters *)

Lemma code_lower (c : ascii) :
  N_of_ascii (ascii_lower c)
  = if is_upper c then (N_of_ascii c + 32)%N else N_of_ascii c.
Proof.
  unfold ascii_lower, is_upper.
  destruct ((65 <=? N_of_ascii c) && (N_of_ascii c <=? 90))%N eqn:U;
    [| reflexivity].
  apply andb_true_iff in U. destruct U as [_ U]. apply N.leb_le in U.
  apply N_ascii_embedding. lia.
Qed.

Lemma code_inj (c d : ascii) : N_of_ascii c = N_of_ascii d -> c = d.
Proof.
  intros H. rewrite <- (ascii_N_embedding c), <- (ascii_N_embedding d), H.
  reflexivity.
Qed.

(** Two characters have the same lower case exactly when they are the
    same letter. *)
Lemma same_letter_lower (c d : ascii) :
  Ascii.eqb (ascii_lower c) (ascii_lower d) = same_letter c d.
Proof.
  apply eq_true_iff_eq. rewrite Ascii.eqb_eq. unfold same_letter.
  rewrite !orb_true_iff, !andb_true_iff, !N.eqb_eq.
  pose proof (code_lower c) as Lc. pose proof (code_lower d) as Ld.
  assert (Uc : is_upper c = true <-> (65 <= N_of_ascii c <= 90)%N).
  { unfold is_upper. rewrite andb_true_iff, !N.leb_le. tauto. }
  assert (Ud : is_upper d = true <-> (65 <= N_of_ascii d <= 90)%N).
  { unfold is_upper. rewrite andb_true_iff, !N.leb_le. tauto. }
  split.
  - intros H. rewrite H in Lc. rewrite Lc in Ld. clear Lc H.
    destruct (is_upper c), (is_upper d);
      try (assert (65 <= N_of_ascii c <= 90)%N by (apply Uc; reflexivity));
      try (assert (65 <= N_of_ascii d <= 90)%N by (apply Ud; reflexivity));
      try (left; left; lia); try (left; right; split; [reflexivity | lia]);
      try (right; split; [reflexivity | lia]).
  - intros H. apply code_inj. rewrite Lc, Ld. clear Lc Ld.
    assert (Nc : is_upper c = false -> ~ (65 <= N_of_ascii c <= 90)%N).
    { intros E X. apply Uc in X. rewrite E in X. discriminate. }
    assert (Nd : is_upper d = false -> ~ (65 <= N_of_ascii d <= 90)%N).
    { intros E X. apply Ud in X. rewrite E in X. discriminate. }
    destruct (is_upper c) eqn:Ec, (is_upper d) eqn:Ed;
      try (assert (65 <= N_of_ascii c <= 90)%N by (apply Uc; reflexivity));
      try (assert (65 <= N_of_ascii d <= 90)%N by (apply Ud; reflexivity));
      try specialize (Nc eq_refl); try specialize (Nd eq_refl);
      destruct H as [[H | [Hu H]] | [Hu H]]; try discriminate; lia.
Qed.

(** [a.lower() == b.lower()] holds exactly when [a] and [b] are equal up
    to the case of their letters. *)
Lemma lower_eqb (a b : string) :
  String.eqb (lower a) (lower b) = same_ignoring_case a b.
Proof.
  revert b. induction a as [| c a IH]; intros [| d b]; cbn; try reflexivity.
  rewrite same_letter_lower, IH.
  destruct (same_letter c d); reflexivity.
Qed.

(** ** C1: the authorization gate of the constructor *)

Section Construction.

Context {W : Type} (h : handler W).

(** Neither the gate nor the constructor ever broadcasts, whatever web3
    replies. *)
Lemma check_authorization_no_write (self : AuditLogger) (w : W) :
  writes (trace_of (run h (_check_authorization self) w)) = [].
Proof.
  unfold _check_authorization. cbn.
  destruct (h (call_authorizedLoggers (address self)) w) as [[e | b] w1]; cbn;
    [reflexivity |].
  destruct b; cbn; [reflexivity |].
  destruct (h call_owner w1) as [[e | o] w2]; cbn; [reflexivity |].
  destruct (String.eqb (lower (address self)) (lower o)); reflexivity.
Qed.

Lemma init_no_write (contract_address private_key uri abi_path : string)
    (w : W) :
  writes (trace_of (run h (__init__ contract_address private_key uri abi_path) w))
  = [].
Proof.
  unfold __init__. cbn.
  destruct (h (open_json_load abi_path) w) as [[e | abi] w1]; cbn.
  { destruct (is_FileNotFoundError e); reflexivity. }
  destruct (h (to_checksum_address contract_address) w1) as [[e | cs] w2]; cbn;
    [reflexivity |].
  destruct (h (eth_contract cs abi) w2) as [[e | []] w3]; cbn; [reflexivity |].
  destruct (h (account_from_key private_key) w3) as [[e | acct] w4]; cbn;
    [reflexivity |].
  destruct (h (call_authorizedLoggers (account_address acct)) w4)
    as [[e | b] w5]; cbn; [reflexivity |].
  destruct b; cbn; [reflexivity |].
  destruct (h call_owner w5) as [[e | o] w6]; cbn; [reflexivity |].
  destruct (String.eqb (lower (account_address acct)) (lower o)); reflexivity.
Qed.

(** C1. Once the ABI is read, the contract bound and the account derived
    from the key, the constructor asks the registry whether the address of
    the account is an approved logger, and asks for the owner only when it
    is not.  It returns the client when the registry approves the address,
    whatever a question for the owner would give, or when the address and
    the owner are the same up to the case of their letters; for every
    other address it raises "not authorized" and returns no client.  In
    both cases the run broadcasts nothing. *)
Theorem init_authorization_gate
    (contract_address private_key uri abi_path : string)
    (w w1 w2 w3 w4 w5 w6 : W) (abi : ABI) (checksummed : string)
    (acct : Account) (is_authorized : bool) (owner : string) :
  h (open_json_load abi_path) w = (inr abi, w1) ->
  h (to_checksum_address contract_address) w1 = (inr checksummed, w2) ->
  h (eth_contract checksummed abi) w2 = (inr tt, w3) ->
  h (account_from_key private_key) w3 = (inr acct, w4) ->
  h (call_authorizedLoggers (account_address acct)) w4
    = (inr is_authorized, w5) ->
  (is_authorized = false -> h call_owner w5 = (inr owner, w6)) ->
  let r := run h (__init__ contract_address private_key uri abi_path) w in
  outcome r
  = (if is_authorized
        || same_ignoring_case (account_address acct) owner
     then inr {| web3 := uri;
                 contract_address := checksummed;
                 contract := (checksummed, abi);
                 account := acct;
                 address := account_address acct |}
     else inl (unauthorized (account_address acct)))
  /\ final r = (if is_authorized then w5 else w6)
  /\ writes (trace_of r) = [].
Proof.
  intros H1 H2 H3 H4 H5 H6 r.
  assert (Hr : outcome r
               = (if is_authorized
                     || same_ignoring_case (account_address acct) owner
                  then inr {| web3 := uri;
                              contract_address := checksummed;
                              contract := (checksummed, abi);
                              account := acct;
                              address := account_address acct |}
                  else inl (unauthorized (account_address acct)))
               /\ final r = (if is_authorized then w5 else w6)).
  { subst r. unfold __init__. cbn.
    rewrite H1; cbn. rewrite H2; cbn. rewrite H3; cbn. rewrite H4; cbn.
    rewrite H5; cbn. destruct is_authorized; cbn; [split; reflexivity |].
    rewrite (H6 eq_refl); cbn. rewrite lower_eqb.
    destruct (same_ignoring_case (account_address acct) owner);
      split; reflexivity. }
  destruct Hr as [Ho Hf]. split; [exact Ho |]. split; [exact Hf |].
  apply init_no_write.
Qed.

End Construction.

(** Lowering the case is idempotent, so the comparison of the gate is an
    equivalence on addresses that ignores the case of the letters. *)
Lemma ascii_lower_idem (c : ascii) : ascii_lower (ascii_lower c) = ascii_lower c.
Proof.
  destruct c as [[] [] [] [] [] [] [] []]; reflexivity.
Qed.

Lemma lower_idem (s : string) : lower (lower s) = lower s.
Proof.
  induction s as [| c s IH]; cbn; [reflexivity |].
  rewrite ascii_lower_idem, IH. reflexivity.
Qed.

(** ** C5, C9: what the readers do with the tuples of the contract *)

Section Readers.

Context {W : Type} (h : handler W).
Variable self : AuditLogger.

(** An entry whose sixth field is an integer outside the enum is rejected
    before the clock is asked. *)
Lemma history_entry_unknown (metrics : list value) (z : Z) (w : W) :
  nth_error metrics 5 = Some (VInt z) -> ~ (0 <= z <= 2) ->
  run h (history_entry metrics) w = (inl (invalid_status z), w, []).
Proof.
  intros Hn Hz.
  destruct metrics as [| m0 [| m1 [| m2 [| m3 [| m4 [| m5 rest]]]]]];
    try discriminate.
  cbn in Hn. injection Hn as ->.
  unfold history_entry. cbn. unfold status_name_of.
  rewrite (NodeStatus_of_value_unknown Hz). reflexivity.
Qed.

Lemma history_loop_unknown (metrics_list : list (list value))
    (metrics : list value) (z : Z) :
  In metrics metrics_list ->
  nth_error metrics 5 = Some (VInt z) -> ~ (0 <= z <= 2) ->
  forall (acc : list NodeMetrics) (w : W),
  exists e, outcome (run h (history_loop metrics_list acc) w) = inl e.
Proof.
  intros Hin Hn Hz.
  induction metrics_list as [| m rest IH]; intros acc w; [destruct Hin |].
  cbn [history_loop]. rewrite run_bind.
  destruct (run h (history_entry m) w) as [[[e | entry] w1] t1] eqn:Hm.
  - exists e. reflexivity.
  - destruct Hin as [-> | Hin].
    + rewrite (history_entry_unknown _ w Hn Hz) in Hm. discriminate.
    + destruct (IH Hin (acc ++ [entry])%list w1) as [e He].
      exists e. unfold outcome in *.
      destruct (run h (history_loop rest (acc ++ [entry])) w1) as [[r w2] t2].
      exact He.
Qed.

(** The loop over a list in two parts. *)
Lemma history_loop_app (pre l : list (list value)) :
  forall (acc : list NodeMetrics) (w : W),
  run h (history_loop (pre ++ l) acc) w
  = match run h (history_loop pre acc) w with
    | (inr res, w', t) =>
        let '(r, w'', t') := run h (history_loop l res) w' in
        (r, w'', (t ++ t')%list)
    | (inl e, w', t) => (inl e, w', t)
    end.
Proof.
  induction pre as [| m pre IH]; intros acc w.
  - cbn. destruct (run h (history_loop l acc) w) as [[r w'] t']. reflexivity.
  - cbn [app history_loop]. rewrite !run_bind.
    destruct (run h (history_entry m) w) as [[[e | entry] w1] t1];
      [reflexivity |].
    rewrite IH.
    destruct (run h (history_loop pre (acc ++ [entry])) w1)
      as [[[e | res] w2] t2]; [reflexivity |].
    destruct (run h (history_loop l res) w2) as [[r w3] t3].
    rewrite app_assoc. reflexivity.
Qed.

(** C9. The status is checked where the tuple is decoded.  When the status
    field of the latest tuple is an integer outside 0, 1 and 2,
    [get_latest_node_metrics] raises the [ValueError] of [NodeStatus] and
    returns no record.  When such a tuple is anywhere among those of the
    history, [get_node_metrics_history] raises and returns no list,
    whatever the other tuples are; and when the tuples before it are
    decoded, the exception is that [ValueError], raised before the clock
    is asked for the tuple and logged once.  No status is made up in
    either case. *)
Theorem status_decoding_rejects_unknown (node_id : string) (w : W) :
  (forall (metrics : list value) (z : Z) (w1 : W),
      h (call_getLatestNodeMetrics node_id) w = (inr metrics, w1) ->
      nth_error metrics 5 = Some (VInt z) ->
      ~ (0 <= z <= 2) ->
      run h (get_latest_node_metrics self node_id) w
      = (inl (invalid_status z), w1,
         [Req (call_getLatestNodeMetrics node_id);
          Logged ERROR ("Error getting latest metrics for " ++ node_id
                        ++ ": " ++ str_int z
                        ++ " is not a valid NodeStatus")]))
  /\ (forall (start_index count : Z) (pre post : list (list value))
             (metrics : list value) (z : Z) (w2 : W),
      h (call_getNodeMetricsHistory node_id start_index count) w
        = (inr (pre ++ metrics :: post)%list, w2) ->
      nth_error metrics 5 = Some (VInt z) ->
      ~ (0 <= z <= 2) ->
      (exists e,
          outcome (run h (get_node_metrics_history self node_id start_index
                            count) w) = inl e)
      /\ forall (entries : list NodeMetrics) (w3 : W) (t : trace),
           run h (history_loop pre []) w2 = (inr entries, w3, t) ->
           run h (get_node_metrics_history self node_id start_index count) w
           = (inl (invalid_status z), w3,
              (Req (call_getNodeMetricsHistory node_id start_index count)
               :: t ++ [history_failed node_id (invalid_status z)])%list)).
Proof.
  split.
  - intros metrics z w1 Hl Hn Hz.
    destruct metrics as [| m0 [| m1 [| m2 [| m3 [| m4 [| m5 rest]]]]]];
      try discriminate.
    cbn in Hn. injection Hn as ->.
    unfold get_latest_node_metrics. cbn. rewrite Hl. cbn.
    unfold status_name_of. rewrite (NodeStatus_of_value_unknown Hz).
    reflexivity.
  - intros start_index count pre post metrics z w2 Hh Hn Hz.
    assert (Hrun : run h (get_node_metrics_history self node_id start_index
                            count) w
                   = match run h (history_loop (pre ++ metrics :: post) [])
                             w2 with
                     | (inr res, w', t) =>
                         (inr res, w',
                          Req (call_getNodeMetricsHistory node_id start_index
                                 count) :: t)
                     | (inl e, w', t) =>
                         (inl e, w',
                          (Req (call_getNodeMetricsHistory node_id
                                  start_index count)
                           :: t ++ [history_failed node_id e])%list)
                     end).
    { unfold get_node_metrics_history. rewrite run_catch, run_bind.
      rewrite (run_perform h
                 (call_getNodeMetricsHistory node_id start_index count)).
      rewrite Hh. cbn [fst snd].
      destruct (run h (history_loop (pre ++ metrics :: post) []) w2)
        as [[[e | res] w'] t]; reflexivity. }
    split.
    + assert (Hin : In metrics (pre ++ metrics :: post)).
      { apply in_or_app. right. left. reflexivity. }
      destruct (history_loop_unknown _ _ Hin Hn Hz [] w2) as [e He].
      rewrite Hrun. unfold outcome in *.
      destruct (run h (history_loop (pre ++ metrics :: post) []) w2)
        as [[[e' | res] w'] t]; cbn in *; [| discriminate].
      exists e'. reflexivity.
    + intros entries w3 t Hpre. rewrite Hrun, history_loop_app, Hpre.
      cbn [history_loop]. rewrite run_bind.
      rewrite (history_entry_unknown _ w3 Hn Hz).
      rewrite app_nil_r. reflexivity.
Qed.

(** C5. When the contract answers with the empty tuple, the sentinel of a
    node without record, [get_latest_node_metrics] returns no record: the
    first subscript raises [IndexError], which is logged and raised to the
    caller. *)
Theorem get_latest_no_record (node_id : string) (w w1 : W) :
  h (call_getLatestNodeMetrics node_id) w = (inr [], w1) ->
  run h (get_latest_node_metrics self node_id) w
  = (inl (mk_exn IndexError "tuple index out of range"), w1,
     [Req (call_getLatestNodeMetrics node_id);
      Logged ERROR ("Error getting latest metrics for " ++ node_id ++ ": "
                    ++ "tuple index out of range")]).
Proof.
  intros H. unfold get_latest_node_metrics. cbn. rewrite H. reflexivity.
Qed.

End Readers.

(** ** The ledger: what the network may change between two requests *)

Section Network.

Import Ledger.

Lemma frame_refl (w : World) : frame w w.
Proof. split; reflexivity. Qed.

Lemma frame_trans (w1 w2 w3 : World) : frame w1 w2 -> frame w2 w3 -> frame w1 w3.
Proof.
  intros [] []. split; etransitivity; eassumption.
Qed.

Lemma externals_frame (senders : list string) (w : World) :
  frame w (fold_left external senders w)
  /\ schedule (fold_left external senders w) = schedule w.
Proof.
  revert w. induction senders as [| a rest IH]; intros w; cbn.
  - split; [apply frame_refl | reflexivity].
  - destruct (IH (external w a)) as [F S]. split.
    + eapply frame_trans; [| exact F]. split; reflexivity.
    + rewrite S. reflexivity.
Qed.

Lemma externals_chain (senders : list string) (w : World) :
  exists exts,
    chain (fold_left external senders w) = (chain w ++ exts)%list
    /\ Forall (transfer_of senders) exts.
Proof.
  revert w. induction senders as [| a rest IH]; intros w; cbn.
  - exists []. rewrite app_nil_r. split; [reflexivity | constructor].
  - destruct (IH (external w a)) as (exts & E & F).
    exists (mk_confirmed [] a (tx_count (chain w) a) None (clock w) true :: exts).
    split.
    + rewrite E. cbn. rewrite <- app_assoc. reflexivity.
    + constructor.
      * repeat split. left. reflexivity.
      * eapply Forall_impl; [| exact F].
        intros t (D & H & I). repeat split; try assumption. right. exact I.
Qed.

Lemma tick_frame (w : World) : frame w (tick w).
Proof.
  unfold tick. destruct (schedule w) as [| senders rest]; [apply frame_refl |].
  eapply frame_trans; [| apply externals_frame]. split; reflexivity.
Qed.

Lemma tick_schedule (w : World) : schedule (tick w) = tl (schedule w).
Proof.
  unfold tick. destruct (schedule w) as [| senders rest] eqn:E; [exact E |].
  destruct (externals_frame senders (set_schedule w rest)) as [_ S].
  rewrite S. reflexivity.
Qed.

Lemma tick_chain (w : World) :
  exists exts,
    chain (tick w) = (chain w ++ exts)%list
    /\ Forall (transfer_of (hd [] (schedule w))) exts.
Proof.
  unfold tick. destruct (schedule w) as [| senders rest].
  - exists []. rewrite app_nil_r. split; [reflexivity | constructor].
  - apply (externals_chain senders (set_schedule w rest)).
Qed.

(** The count of an address. *)
Lemma tx_count_app (c1 c2 : list Confirmed) (a : string) :
  tx_count (c1 ++ c2) a = tx_count c1 a + tx_count c2 a.
Proof.
  unfold tx_count. rewrite filter_app, length_app. lia.
Qed.

Lemma tx_count_nonneg (c : list Confirmed) (a : string) : 0 <= tx_count c a.
Proof. unfold tx_count. lia. Qed.

Lemma tx_count_transfers (senders : list string) (exts : list Confirmed)
    (a : string) :
  Forall (transfer_of senders) exts -> ~ In a senders -> tx_count exts a = 0.
Proof.
  intros F Ha. unfold tx_count.
  induction F as [| t exts (_ & _ & I) _ IH]; [reflexivity |].
  cbn. destruct (String.eqb_spec (c_sender t) a) as [<- | _]; [| exact IH].
  contradiction.
Qed.

Lemma tick_count_le (w : World) (a : string) :
  tx_count (chain w) a <= tx_count (chain (tick w)) a.
Proof.
  destruct (tick_chain w) as (exts & E & _). rewrite E, tx_count_app.
  pose proof (tx_count_nonneg exts a). lia.
Qed.

(** The records of a node are those of the contract calls only. *)
Lemma node_history_transfers (senders : list string) (exts : list Confirmed)
    (node_id : string) :
  Forall (transfer_of senders) exts -> node_history exts node_id = [].
Proof.
  intros F. unfold node_history.
  induction F as [| t exts (D & _) _ IH]; [reflexivity |].
  cbn. unfold stored at 1. rewrite D. exact IH.
Qed.

Lemma node_history_app (c1 c2 : list Confirmed) (node_id : string) :
  node_history (c1 ++ c2) node_id
  = (node_history c1 node_id ++ node_history c2 node_id)%list.
Proof. apply flat_map_app. Qed.

Lemma tick_node_history (w : World) (node_id : string) :
  node_history (chain (tick w)) node_id = node_history (chain w) node_id.
Proof.
  destruct (tick_chain w) as (exts & E & F).
  rewrite E, node_history_app, (node_history_transfers node_id F).
  apply app_nil_r.
Qed.

End Network.

(** ** C6: the history of a node *)

Arguments Ledger.tick : simpl never.
Arguments str_int : simpl never.
Arguments to_hex : simpl never.

Section History.

Import Ledger.

Lemma Forall_firstn {A : Type} (P : A -> Prop) (n : nat) (l : list A) :
  Forall P l -> Forall P (firstn n l).
Proof.
  intros F. revert n. induction F as [| x l Hx _ IH]; intros [| n]; cbn;
    constructor; auto.
Qed.

Lemma Forall_skipn {A : Type} (P : A -> Prop) (n : nat) (l : list A) :
  Forall P l -> Forall P (skipn n l).
Proof.
  intros F. revert n. induction F as [| x l Hx F IH]; intros [| n]; cbn;
    try constructor; auto.
Qed.

Lemma node_history_shape (c : list Confirmed) (node_id : string) :
  valid_chain c -> Forall stored_shape (node_history c node_id).
Proof.
  intros V. unfold node_history. apply Forall_flat_map.
  eapply Forall_impl; [| exact V]. intros t Ht. unfold stored.
  destruct (c_data t) as [[n mu cl am s | n a r] |] eqn:D; try constructor.
  destruct (c_ok t) eqn:O; cbn; [| constructor].
  destruct (String.eqb n node_id); constructor; [| constructor].
  specialize (Ht O _ D). cbn in Ht.
  exists n, (c_time t), mu, cl, am, s, "". split; [reflexivity | lia].
Qed.

Lemma history_entry_stored (m : list value) (w : World) :
  stored_shape m ->
  exists e, run handle (history_entry m) w
            = (inr e, tick w, [Req (strftime_localtime (timestamp e))])
            /\ shows e m.
Proof.
  intros (n & t & mu & cl & am & s & sa & -> & Hs).
  assert (Hcase : s = 0 \/ s = 1 \/ s = 2) by lia.
  pose (e st := mk_metrics (VStr n) (VInt t) (VInt mu) (VInt cl) (VInt am)
                  (name st) (VStr sa) ("@" ++ str_int t)).
  destruct Hcase as [-> | [-> | ->]].
  - exists (e Normal). split; [reflexivity |].
    exists Normal. split; reflexivity.
  - exists (e Scaling). split; [reflexivity |].
    exists Scaling. split; reflexivity.
  - exists (e Alert). split; [reflexivity |].
    exists Alert. split; reflexivity.
Qed.

Lemma history_loop_stored (l : list (list value)) :
  Forall stored_shape l ->
  forall (acc : list NodeMetrics) (w : World),
  exists entries,
    outcome (run handle (history_loop l acc) w) = inr (acc ++ entries)%list
    /\ Forall2 shows entries l.
Proof.
  induction 1 as [| m l Hm _ IH]; intros acc w.
  - exists []. rewrite app_nil_r. split; [reflexivity | constructor].
  - destruct (history_entry_stored w Hm) as (e & Hrun & Hshow).
    destruct (IH (acc ++ [e])%list (tick w)) as (entries & Hout & Hall).
    exists (e :: entries). split; [| constructor; assumption].
    cbn [history_loop]. rewrite run_bind, Hrun. unfold outcome in *.
    destruct (run handle (history_loop l (acc ++ [e])) (tick w))
      as [[r w2] t2].
    cbn in *. rewrite Hout, <- app_assoc. reflexivity.
Qed.

(** C6. On the ledger, for a start index that is not negative and a
    positive count, [get_node_metrics_history] returns one entry for each
    record of the node from the start index on, at most [count] of them,
    in the order of the chain, the oldest first; each entry shows its
    record.  A count beyond what is left gives what is left and no error:
    with three records, start 0 and count 10 it returns three entries. *)
Theorem get_history_oldest_first (self : AuditLogger) (node_id : string)
    (start_index count : Z) (w : World) :
  valid_chain (chain w) ->
  0 <= start_index ->
  0 < count ->
  exists entries,
    outcome (run handle
               (get_node_metrics_history self node_id start_index count) w)
    = inr entries
    /\ Forall2 shows entries
         (firstn (Z.to_nat count)
            (skipn (Z.to_nat start_index) (node_history (chain w) node_id)))
    /\ List.length entries
       = Nat.min (Z.to_nat count)
           (List.length (node_history (chain w) node_id)
            - Z.to_nat start_index)
    /\ (start_index = start_index_default -> count = count_default ->
        List.length (node_history (chain w) node_id) = 3%nat ->
        List.length entries = 3%nat).
Proof.
  intros V Hs Hc.
  pose proof (node_history_shape node_id V) as Shape.
  apply (Forall_skipn (Z.to_nat start_index)) in Shape.
  apply (Forall_firstn (Z.to_nat count)) in Shape.
  destruct (history_loop_stored Shape [] (tick w)) as (entries & Hout & Hall).
  exists entries.
  assert (Hlen : List.length entries
                 = Nat.min (Z.to_nat count)
                     (List.length (node_history (chain w) node_id)
                      - Z.to_nat start_index)).
  { rewrite (Forall2_length Hall), length_firstn, length_skipn. reflexivity. }
  split; [| split; [exact Hall | split; [exact Hlen |]]].
  - unfold get_node_metrics_history. rewrite run_catch, run_bind.
    rewrite (run_perform handle
               (call_getNodeMetricsHistory node_id start_index count)).
    assert (Hreq : handle
                     (call_getNodeMetricsHistory node_id start_index count) w
                   = (inr (slice (chain (tick w)) node_id start_index count),
                      tick w)).
    { unfold handle. cbn [serve].
      assert (Hneg : (start_index <? 0) || (count <? 0) = false).
      { apply orb_false_iff. split; apply Z.ltb_ge; lia. }
      rewrite Hneg. reflexivity. }
    rewrite Hreq. cbn [fst snd]. unfold slice.
    rewrite tick_node_history. unfold outcome in *.
    destruct (run handle (history_loop _ []) (tick w)) as [[r w2] t2].
    cbn in Hout. subst r. reflexivity.
  - intros -> -> H3. rewrite Hlen, H3. reflexivity.
Qed.

End History.

(** ** A submission on the ledger *)

Arguments Ledger.wait : simpl never.
Arguments Ledger.hash_of : simpl never.

Section OnLedger.

Import Ledger.

Lemma ticks_frame (k : nat) (w : World) : frame w (ticks k w).
Proof.
  induction k as [| k IH]; [apply frame_refl |].
  eapply frame_trans; [exact IH | apply tick_frame].
Qed.

Lemma ticks_count_le (k : nat) (w : World) (a : string) :
  tx_count (chain w) a <= tx_count (chain (ticks k w)) a.
Proof.
  induction k as [| k IH]; [reflexivity |].
  etransitivity; [exact IH | apply tick_count_le].
Qed.

Lemma ticks_node_history (k : nat) (w : World) (node_id : string) :
  node_history (chain (ticks k w)) node_id = node_history (chain w) node_id.
Proof.
  induction k as [| k IH]; [reflexivity |].
  change (ticks (S k) w) with (tick (ticks k w)).
  rewrite tick_node_history. exact IH.
Qed.

Variables (self : AuditLogger) (function : contract_function) (gas_limit : Z).

Lemma send_on_ledger (w : World) :
  let raw := signed self function gas_limit w in
  let tx_hash := hash_of (List.length (pool w)) in
  run handle (_send_transaction self function gas_limit) w
  = match assoc (key (account self)) (keyring w) with
    | Some _ =>
        let '(x, w7) :=
          wait (tick (broadcast self function gas_limit w)) tx_hash in
        settled self function gas_limit (fetched self w) (network_id w)
          (suggested_gas_price w) (raw_txn raw) (mk_signed raw) tx_hash x w7
    | None =>
        (inl invalid_sender, ticks 6 w,
         (removelast
            (submission_requests self function gas_limit (fetched self w)
               (network_id w) (suggested_gas_price w) (raw_txn raw)
               (mk_signed raw) [])
          ++ [reported invalid_sender])%list)
    end.
Proof.
  intros raw tx_hash.
  pose proof (ticks_frame 2 w) as F2. pose proof (ticks_frame 3 w) as F3.
  pose proof (ticks_frame 6 w) as F6.
  assert (H1 : handle (get_transaction_count (address self)) w
               = (inr (fetched self w), ticks 1 w)) by reflexivity.
  assert (H2 : handle chain_id (ticks 1 w)
               = (inr (network_id w), ticks 2 w)).
  { unfold handle. cbn [serve]. rewrite <- (frame_network F2). reflexivity. }
  assert (H3 : handle gas_price (ticks 2 w)
               = (inr (suggested_gas_price w), ticks 3 w)).
  { unfold handle. cbn [serve]. rewrite <- (frame_price F3). reflexivity. }
  assert (H4 : handle (build_transaction function
                         (mk_params (network_id w) gas_limit
                            (suggested_gas_price w) (fetched self w)))
                 (ticks 3 w)
               = (inr (raw_txn raw), ticks 4 w)) by reflexivity.
  assert (H5 : handle (sign_transaction (raw_txn raw) (key (account self)))
                 (ticks 4 w)
               = (inr (mk_signed raw), ticks 5 w)) by reflexivity.
  destruct (assoc (key (account self)) (keyring w)) as [sender |] eqn:K.
  - assert (H6 : handle (send_raw_transaction raw) (ticks 5 w)
                 = (inr tx_hash, broadcast self function gas_limit w)).
    { unfold handle. cbn [serve].
      change (tick (ticks 5 w)) with (ticks 6 w).
      change (raw_key raw) with (key (account self)).
      rewrite (frame_keyring F6), K. unfold broadcast.
      rewrite (frame_pool F6). reflexivity. }
    destruct (wait (tick (broadcast self function gas_limit w)) tx_hash)
      as [x w7] eqn:H7.
    exact (send_transaction_run handle self w H1 H2 H3 H4 H5 H6 H7).
  - assert (H6 : handle (send_raw_transaction raw) (ticks 5 w)
                 = (inl invalid_sender, ticks 6 w)).
    { unfold handle. cbn [serve].
      change (tick (ticks 5 w)) with (ticks 6 w).
      change (raw_key raw) with (key (account self)).
      rewrite (frame_keyring F6), K. reflexivity. }
    exact (send_transaction_refused handle self w H1 H2 H3 H4 H5 H6).
Qed.

End OnLedger.

(** ** The invariants of the ledger *)

Section Consistency.

Import Ledger.

Lemma tx_count_last (c : list Confirmed) (t : Confirmed) :
  tx_count (c ++ [t]) (c_sender t) = tx_count c (c_sender t) + 1.
Proof.
  rewrite tx_count_app. unfold tx_count at 2. cbn.
  rewrite String.eqb_refl. reflexivity.
Qed.

Lemma chain_ok_nonce_lt (c : list Confirmed) :
  chain_ok c ->
  forall t, In t c -> c_nonce t < tx_count c (c_sender t).
Proof.
  induction 1 as [| c t' Hc IH Hn]; intros t Hin; [destruct Hin |].
  apply in_app_or in Hin. destruct Hin as [Hin | [<- | []]].
  - specialize (IH t Hin). rewrite tx_count_app.
    pose proof (tx_count_nonneg [t'] (c_sender t)). lia.
  - rewrite tx_count_last. lia.
Qed.

Lemma externals_chain_ok (senders : list string) (w : World) :
  chain_ok (chain w) -> chain_ok (chain (fold_left external senders w)).
Proof.
  revert w. induction senders as [| a rest IH]; intros w Hc; [exact Hc |].
  cbn [fold_left]. apply IH. cbn. apply chain_ok_snoc; [exact Hc | reflexivity].
Qed.

Lemma tick_chain_ok (w : World) : chain_ok (chain w) -> chain_ok (chain (tick w)).
Proof.
  intros Hc. unfold tick. destruct (schedule w) as [| senders rest];
    [exact Hc |].
  apply externals_chain_ok. exact Hc.
Qed.

Lemma tick_hashes_below (i : nat) (w : World) :
  hashes_below i (chain w) -> hashes_below i (chain (tick w)).
Proof.
  intros Hh. destruct (tick_chain w) as (exts & E & F). rewrite E.
  apply Forall_app. split; [exact Hh |].
  eapply Forall_impl; [| exact F]. intros t (_ & H0 & _).
  rewrite H0. cbn. lia.
Qed.

Lemma tick_consistent (w : World) : consistent w -> consistent (tick w).
Proof.
  intros [Hc Hh]. split.
  - apply tick_chain_ok. exact Hc.
  - rewrite (frame_pool (tick_frame w)). apply tick_hashes_below. exact Hh.
Qed.

Lemma ticks_consistent (k : nat) (w : World) :
  consistent w -> consistent (ticks k w).
Proof.
  intros H. induction k as [| k IH]; [exact H |].
  apply tick_consistent. exact IH.
Qed.

Lemma length_hash_of (i : nat) : List.length (hash_of i) = S i.
Proof. unfold hash_of. apply repeat_length. Qed.

Lemma eqb_bytes_refl (h : list byte) : eqb_bytes h h = true.
Proof.
  unfold eqb_bytes. destruct (list_eq_dec Byte.byte_eq_dec h h);
    [reflexivity | contradiction].
Qed.

Lemma eqb_bytes_true (a b : list byte) : eqb_bytes a b = true -> a = b.
Proof.
  unfold eqb_bytes. destruct (list_eq_dec Byte.byte_eq_dec a b);
    [intros _; assumption | discriminate].
Qed.

Lemma find_fresh (i : nat) (c : list Confirmed) :
  hashes_below i c ->
  find (fun t => eqb_bytes (c_hash t) (hash_of i)) c = None.
Proof.
  induction 1 as [| t c Ht _ IH]; [reflexivity |].
  cbn [find]. destruct (eqb_bytes (c_hash t) (hash_of i)) eqn:E; [| exact IH].
  apply eqb_bytes_true in E. rewrite E, length_hash_of in Ht. lia.
Qed.

(** The wait for a broadcast that is not yet in the chain. *)
Lemma wait_pending (w : World) (i : nat) (raw : RawTransaction)
    (sender : string) :
  hashes_below i (chain w) ->
  nth_error (pool w) i = Some raw ->
  assoc (raw_key raw) (keyring w) = Some sender ->
  wait w (hash_of i)
  = if nonce (tx_params (raw_txn raw)) =? tx_count (chain w) sender then
      (inr (receipt_of (included w (hash_of i) sender raw)),
       append w (included w (hash_of i) sender raw))
    else (inl (not_in_chain (hash_of i)), w).
Proof.
  intros Hh Hp Hk. unfold wait.
  rewrite (find_fresh Hh), length_hash_of. cbn [pred].
  rewrite Hp, Hk, eqb_bytes_refl. reflexivity.
Qed.

Lemma wait_consistent (w : World) (h : list byte) :
  consistent w -> consistent (snd (wait w h)).
Proof.
  intros [Hc Hh]. unfold wait.
  destruct (find _ (chain w)); [split; assumption |].
  destruct (nth_error (pool w) (pred (List.length h))) as [raw |] eqn:Hp;
    [| split; assumption].
  destruct (assoc (raw_key raw) (keyring w)) as [sender |];
    [| split; assumption].
  destruct (eqb_bytes (hash_of (pred (List.length h))) h) eqn:Eh;
    [| split; assumption].
  destruct (nonce (tx_params (raw_txn raw)) =? tx_count (chain w) sender)
    eqn:En; [| split; assumption].
  cbn. apply Z.eqb_eq in En. apply eqb_bytes_true in Eh. split; cbn.
  - apply chain_ok_snoc; [exact Hc | exact En].
  - apply Forall_app. split; [exact Hh |]. constructor; [| constructor].
    cbn. rewrite <- Eh, length_hash_of.
    assert (Hlt : (pred (List.length h) < List.length (pool w))%nat).
    { apply nth_error_Some. rewrite Hp. discriminate. }
    lia.
Qed.

Lemma handle_consistent (q : request) (w : World) :
  consistent w -> consistent (snd (handle q w)).
Proof.
  intros H. apply tick_consistent in H. unfold handle.
  destruct q as [p | a | a abi | k | a | | n | n s c | f | a | | | f p | t k
                 | raw | tx_hash | v];
    cbn [serve]; try exact H.
  - destruct (assoc p (files (tick w))); exact H.
  - destruct (is_address a); exact H.
  - destruct (assoc k (keyring (tick w))); exact H.
  - destruct ((s <? 0) || (c <? 0)); exact H.
  - destruct (assoc (raw_key raw) (keyring (tick w))); [| exact H].
    destruct H as [Hc Hh]. split; cbn; [exact Hc |].
    eapply Forall_impl; [| exact Hh]. intros t Ht. cbn in *.
    rewrite length_app. lia.
  - apply wait_consistent. exact H.
  - destruct v; exact H.
Qed.

Lemma run_consistent {R : Type} (p : prog R) (w : World) :
  consistent w -> consistent (final (run handle p w)).
Proof.
  revert w. induction p as [r | e | l m k IH | q k IH]; intros w H; cbn.
  - exact H.
  - exact H.
  - specialize (IH w H). unfold final in *.
    destruct (run handle k w) as [[r w'] t]. exact IH.
  - pose proof (handle_consistent q H) as H1.
    destruct (handle q w) as [x w1]. specialize (IH x w1 H1).
    unfold final in *. destruct (run handle (k x) w1) as [[r w'] t].
    exact IH.
Qed.

End Consistency.

(** ** C2: the nonces of the submissions *)

Section Nonces.

Import Ledger.

Variable self : AuditLogger.

Lemma wait_after_broadcast (f : contract_function) (g : Z) (w : World)
    (sender : string) :
  consistent w ->
  assoc (key (account self)) (keyring w) = Some sender ->
  let w7 := tick (broadcast self f g w) in
  let t := included w7 (hash_of (List.length (pool w))) sender
             (signed self f g w) in
  wait w7 (hash_of (List.length (pool w)))
  = if fetched self w =? tx_count (chain w7) sender then
      (inr (receipt_of t), append w7 t)
    else (inl (not_in_chain (hash_of (List.length (pool w)))), w7).
Proof.
  intros Hw Hk w7 t.
  pose proof (ticks_frame 6 w) as F6.
  pose proof (tick_frame (broadcast self f g w)) as F7.
  apply (wait_pending w7 (raw := signed self f g w)).
  - apply tick_hashes_below. cbn [broadcast set_pool chain].
    rewrite <- (frame_pool F6). apply (cons_hashes (ticks_consistent 6 Hw)).
  - subst w7. rewrite (frame_pool F7). cbn [broadcast set_pool pool].
    rewrite nth_error_app2, Nat.sub_diag; [reflexivity | lia].
  - subst w7. rewrite (frame_keyring F7). cbn [broadcast set_pool keyring].
    rewrite (frame_keyring F6). exact Hk.
Qed.

(** A submission that returns a hash has entered the chain with the nonce
    it fetched, which was the next one of the sender at that moment. *)
Lemma send_confirmed (f : contract_function) (g : Z) (w w' : World)
    (tx_hash : string) (tr : trace) :
  consistent w ->
  run handle (_send_transaction self f g) w = (inr tx_hash, w', tr) ->
  exists sender,
    assoc (key (account self)) (keyring w) = Some sender
    /\ fetched self w = tx_count (chain (tick (broadcast self f g w))) sender
    /\ w' = append (tick (broadcast self f g w))
              (included (tick (broadcast self f g w))
                 (hash_of (List.length (pool w))) sender (signed self f g w))
    /\ writes tr = [send_raw_transaction (signed self f g w)].
Proof.
  intros Hw Hrun. rewrite send_on_ledger in Hrun.
  destruct (assoc (key (account self)) (keyring w)) as [sender |] eqn:K;
    [| discriminate].
  exists sender. split; [reflexivity |].
  rewrite (wait_after_broadcast f g Hw K) in Hrun.
  destruct (fetched self w =? tx_count _ sender) eqn:E; [| discriminate].
  apply Z.eqb_eq in E. split; [exact E |].
  unfold settled in Hrun.
  destruct (status (receipt_of _) =? 1); [| discriminate].
  injection Hrun as _ <- <-. split; reflexivity.
Qed.

(** Whatever its end, a submission broadcasts at most the transaction it
    built with the nonce it fetched. *)
Lemma send_writes (f : contract_function) (g : Z) (w : World)
    (raw : RawTransaction) :
  In (send_raw_transaction raw)
     (requests (trace_of (run handle (_send_transaction self f g) w))) ->
  raw = signed self f g w.
Proof.
  rewrite send_on_ledger.
  destruct (assoc (key (account self)) (keyring w)) as [sender |].
  - destruct (wait _ _) as [[e | receipt] w7]; unfold settled.
    + cbn. intros Hin.
      repeat (destruct Hin as [Hin | Hin]; try discriminate);
        try contradiction.
      * injection Hin as <-. reflexivity.
      * unfold reported in Hin. destruct (is_ContractLogicError e);
          destruct Hin.
    + destruct (status receipt =? 1); cbn; intros Hin;
        repeat (destruct Hin as [Hin | Hin]; try discriminate);
        try contradiction; try (injection Hin as <-; reflexivity).
  - cbn. intros Hin.
    repeat (destruct Hin as [Hin | Hin]; try discriminate);
      try contradiction; try (injection Hin as <-; reflexivity).
Qed.

Lemma broadcast_count_le (f : contract_function) (g : Z) (w : World)
    (a : string) :
  tx_count (chain w) a <= tx_count (chain (tick (broadcast self f g w))) a.
Proof.
  etransitivity; [apply (ticks_count_le 6 w a) |].
  apply (tick_count_le (broadcast self f g w) a).
Qed.

(** C2. On the ledger, where the nonce of an address is the count of its
    confirmed transactions and other processes may confirm their own at
    any moment, a submission keeps no nonce of its own: the transaction it
    broadcasts carries the count the gateway reports to this very
    submission, which is greater than the nonce of every transaction of
    the identity confirmed by then.  Of two submissions in sequence that
    both return a hash, the second carries the greater nonce. *)
Theorem nonce_fresh_and_increasing
    (f1 f2 : contract_function) (g1 g2 : Z) (w : World) :
  consistent w ->
  let r1 := run handle (_send_transaction self f1 g1) w in
  let r2 := run handle (_send_transaction self f2 g2) (final r1) in
  (forall raw,
      In (send_raw_transaction raw) (requests (trace_of r1)) ->
      nonce (tx_params (raw_txn raw)) = tx_count (chain (tick w)) (address self)
      /\ forall t, In t (chain (tick w)) -> c_sender t = address self ->
                   c_nonce t < nonce (tx_params (raw_txn raw)))
  /\ (forall h1 h2,
         outcome r1 = inr h1 -> outcome r2 = inr h2 ->
         exists raw1 raw2,
           writes (trace_of r1) = [send_raw_transaction raw1]
           /\ writes (trace_of r2) = [send_raw_transaction raw2]
           /\ nonce (tx_params (raw_txn raw1))
              < nonce (tx_params (raw_txn raw2))).
Proof.
  intros Hw r1 r2. split.
  - intros raw Hin. apply send_writes in Hin. subst raw.
    split; [reflexivity |]. intros t Hin Hs. cbn. unfold fetched.
    rewrite <- Hs.
    apply (chain_ok_nonce_lt (cons_chain (tick_consistent Hw)) _ Hin).
  - intros h1 h2 H1 H2.
    pose proof (run_consistent (_send_transaction self f1 g1) Hw) as Hw1.
    fold r1 in Hw1.
    destruct r1 as [[o1 w1] t1] eqn:E1. cbn in H1, Hw1, r2. subst o1.
    destruct r2 as [[o2 w2] t2] eqn:E2. cbn in H2. subst o2.
    destruct (send_confirmed _ _ Hw E1) as (s1 & K1 & N1 & W1 & T1).
    destruct (send_confirmed _ _ Hw1 E2) as (s2 & K2 & N2 & W2 & T2).
    exists (signed self f1 g1 w), (signed self f2 g2 w1).
    split; [exact T1 |]. split; [exact T2 |]. cbn.
    assert (Hk : keyring w1 = keyring w).
    { rewrite W1. cbn [append keyring].
      rewrite (frame_keyring (tick_frame _)). cbn [broadcast set_pool keyring].
      apply (frame_keyring (ticks_frame 6 w)). }
    rewrite Hk, K1 in K2. injection K2 as <-.
    assert (Hafter : tx_count (chain w1) s1 = fetched self w + 1).
    { rewrite W1. cbn [append chain].
      rewrite (tx_count_last (chain (tick (broadcast self f1 g1 w)))
                 (included _ _ s1 _)).
      cbn [included c_sender]. lia. }
    pose proof (broadcast_count_le f2 g2 w1 s1). lia.
Qed.

End Nonces.

(** ** C10, C4: logging the metrics of a node, and reading them back *)

Section Logging.

Context {W : Type} (h : handler W).
Variables (self : AuditLogger) (node_id : string).

Lemma log_node_metrics_run (memory_usage cpu_load allocated_memory : Z)
    (st : NodeStatus) (w w0 : W) :
  let f := logNodeMetrics node_id memory_usage cpu_load allocated_memory
             (int_of_NodeStatus st) in
  h (contract_functions f) w = (inr tt, w0) ->
  run h (log_node_metrics self node_id memory_usage cpu_load
           allocated_memory st) w
  = let '(r, w', t) :=
      run h (_send_transaction self f gas_limit_default) w0 in
    (r, w',
     logging_metrics node_id memory_usage cpu_load allocated_memory st
     :: Req (contract_functions f) :: t).
Proof.
  intros f H0. unfold log_node_metrics. fold f.
  rewrite run_bind. cbn [logger run].
  rewrite run_bind, (run_perform h (contract_functions f)), H0. cbn [fst snd].
  destruct (run h (_send_transaction self f gas_limit_default) w0)
    as [[r w'] t].
  reflexivity.
Qed.

(** C10. Whatever the integers given for the memory in use, the load and
    the allocated memory, inside their ranges or not, [log_node_metrics]
    checks none of them: it binds [logNodeMetrics] to these very values and
    the integer of the status, builds the transaction from that call and
    broadcasts it, and ends as the ledger settles the transaction. *)
Theorem log_node_metrics_unchecked
    (memory_usage cpu_load allocated_memory : Z) (st : NodeStatus)
    (w w0 w1 w2 w3 w4 w5 w6 w7 : W) (n c g : Z) (txn : Transaction)
    (s : SignedTransaction) (tx_hash : list byte) (x : result Receipt) :
  let f := logNodeMetrics node_id memory_usage cpu_load allocated_memory
             (int_of_NodeStatus st) in
  h (contract_functions f) w = (inr tt, w0) ->
  h (get_transaction_count (address self)) w0 = (inr n, w1) ->
  h chain_id w1 = (inr c, w2) ->
  h gas_price w2 = (inr g, w3) ->
  h (build_transaction f
       {| chainId := c; gas := gas_limit_default; gasPrice := g; nonce := n |})
    w3 = (inr txn, w4) ->
  h (sign_transaction txn (key (account self))) w4 = (inr s, w5) ->
  h (send_raw_transaction (rawTransaction s)) w5 = (inr tx_hash, w6) ->
  h (wait_for_transaction_receipt tx_hash) w6 = (x, w7) ->
  run h (log_node_metrics self node_id memory_usage cpu_load
           allocated_memory st) w
  = let '(r, w', t) :=
      settled self f gas_limit_default n c g txn s tx_hash x w7 in
    (r, w',
     logging_metrics node_id memory_usage cpu_load allocated_memory st
     :: Req (contract_functions f) :: t).
Proof.
  intros f H0 H1 H2 H3 H4 H5 H6 H7.
  rewrite (log_node_metrics_run _ H0). fold f.
  rewrite (send_transaction_run h self w0 H1 H2 H3 H4 H5 H6 H7).
  reflexivity.
Qed.

(** The record built from a tuple of seven fields with a status of the
    enum. *)
Lemma get_latest_stored (w w1 w2 : W) (m0 m2 m3 m4 m6 : value) (t : Z)
    (st : NodeStatus) (dt : string) :
  h (call_getLatestNodeMetrics node_id) w
    = (inr [m0; VInt t; m2; m3; m4; VInt (int_of_NodeStatus st); m6], w1) ->
  h (strftime_localtime (VInt t)) w1 = (inr dt, w2) ->
  run h (get_latest_node_metrics self node_id) w
  = (inr {| nodeId := m0; timestamp := VInt t; memoryUsage := m2;
            cpuLoad := m3; allocatedMemory := m4; status_name := name st;
            scaleAction := m6; datetime := dt |},
     w2,
     [Req (call_getLatestNodeMetrics node_id);
      Req (strftime_localtime (VInt t))]).
Proof.
  intros H1 H2. unfold get_latest_node_metrics. cbn. rewrite H1. cbn.
  destruct st; cbn; rewrite H2; reflexivity.
Qed.

End Logging.

Section Roundtrip.

Import Ledger.

Lemma tick_quiet (a : string) (w : World) :
  quiet a (schedule w) ->
  quiet a (schedule (tick w))
  /\ tx_count (chain (tick w)) a = tx_count (chain w) a.
Proof.
  intros Q. split.
  - rewrite tick_schedule. destruct Q; [constructor | assumption].
  - destruct (tick_chain w) as (exts & E & F). rewrite E, tx_count_app.
    rewrite (tx_count_transfers a F); [lia |].
    destruct Q; [intros [] | assumption].
Qed.

Lemma ticks_quiet (a : string) (k : nat) (w : World) :
  quiet a (schedule w) ->
  quiet a (schedule (ticks k w))
  /\ tx_count (chain (ticks k w)) a = tx_count (chain w) a.
Proof.
  intros Q. induction k as [| k [Qk Ck]]; [split; [exact Q | reflexivity] |].
  destruct (tick_quiet (ticks k w) Qk) as [Q' C']. split; [exact Q' |].
  change (ticks (S k) w) with (tick (ticks k w)). rewrite C'. exact Ck.
Qed.

Lemma tick_authorized (w : World) (a : string) :
  authorized (tick w) a = authorized w a.
Proof.
  unfold authorized.
  rewrite (frame_loggers (tick_frame w)), (frame_owner (tick_frame w)).
  reflexivity.
Qed.

Lemma ticks_authorized (k : nat) (w : World) (a : string) :
  authorized (ticks k w) a = authorized w a.
Proof.
  induction k as [| k IH]; [reflexivity |].
  change (ticks (S k) w) with (tick (ticks k w)).
  rewrite tick_authorized. exact IH.
Qed.

Variables (self : AuditLogger) (node_id : string).

(** C4. On the ledger, for a client whose key is the one of its address,
    an identity the contract lets write and no other process using the
    identity meanwhile: when the memory sizes are not negative and the load
    is within 0..100, [log_node_metrics] returns a hash and
    [get_latest_node_metrics] for the same node then returns a record whose
    node, memory in use, load and allocated memory are the values
    submitted and whose status is the name of the status submitted. *)
Theorem log_then_latest_roundtrip
    (memory_usage cpu_load allocated_memory : Z) (st : NodeStatus)
    (w : World) :
  consistent w ->
  assoc (key (account self)) (keyring w) = Some (address self) ->
  authorized w (address self) = true ->
  quiet (address self) (schedule w) ->
  0 <= memory_usage ->
  0 <= cpu_load <= 100 ->
  0 <= allocated_memory ->
  let r1 := run handle (log_node_metrics self node_id memory_usage cpu_load
                          allocated_memory st) w in
  let r2 := run handle (get_latest_node_metrics self node_id) (final r1) in
  exists tx_hash record,
    outcome r1 = inr tx_hash
    /\ outcome r2 = inr record
    /\ nodeId record = VStr node_id
    /\ memoryUsage record = VInt memory_usage
    /\ cpuLoad record = VInt cpu_load
    /\ allocatedMemory record = VInt allocated_memory
    /\ status_name record = name st.
Proof.
  intros Hw Hk Ha Hq Hm Hc Hal r1 r2.
  set (f := logNodeMetrics node_id memory_usage cpu_load allocated_memory
              (int_of_NodeStatus st)).
  set (a := address self) in *.
  set (w0 := tick w).
  assert (Hw0 : consistent w0) by (apply tick_consistent; exact Hw).
  assert (Hk0 : assoc (key (account self)) (keyring w0) = Some a).
  { unfold w0. rewrite (frame_keyring (tick_frame w)). exact Hk. }
  destruct (tick_quiet w Hq) as [Hq0 _]. fold w0 in Hq0.
  set (w7 := tick (broadcast self f gas_limit_default w0)).
  set (tx_hash := hash_of (List.length (pool w0))).
  set (t := included w7 tx_hash a (signed self f gas_limit_default w0)).
  (* the transaction enters the chain *)
  assert (Hcount : fetched self w0 = tx_count (chain w7) a).
  { unfold fetched. fold a.
    destruct (tick_quiet w0 Hq0) as [_ ->].
    destruct (ticks_quiet 6 w0 Hq0) as [Q6 C6].
    assert (Q6' : quiet a (schedule (broadcast self f gas_limit_default w0)))
      by exact Q6.
    destruct (tick_quiet _ Q6') as [_ C7]. fold w7 in C7.
    rewrite C7. cbn [broadcast set_pool chain]. symmetry. exact C6. }
  assert (Hok : c_ok t = true).
  { unfold t, included. cbn [c_ok]. apply andb_true_iff. split.
    - unfold w7. rewrite tick_authorized.
      change (authorized (broadcast self f gas_limit_default w0) a)
        with (authorized (ticks 6 w0) a).
      rewrite ticks_authorized. unfold w0. rewrite tick_authorized. exact Ha.
    - cbn. destruct st; cbn;
        repeat (apply andb_true_iff; split); try apply Z.leb_le; lia. }
  assert (Hr1 : r1 = (inr (to_hex tx_hash), append w7 t,
                      logging_metrics node_id memory_usage cpu_load
                        allocated_memory st
                      :: Req (contract_functions f)
                      :: trace_of (run handle
                           (_send_transaction self f gas_limit_default) w0))).
  { subst r1.
    assert (H0 : handle (contract_functions f) w = (inr tt, w0))
      by reflexivity.
    rewrite (log_node_metrics_run handle self st w H0). fold f. rewrite send_on_ledger, Hk0.
    pose proof (wait_after_broadcast self f gas_limit_default Hw0 Hk0) as Hwait.
    cbv zeta in Hwait. fold w7 tx_hash t in Hwait. fold tx_hash w7.
    rewrite Hwait, Hcount, Z.eqb_refl.
    unfold settled, receipt_of. rewrite Hok. reflexivity. }
  (* the latest record of the node is the one just stored *)
  set (stored_tuple := [VStr node_id; VInt (clock w7); VInt memory_usage;
                        VInt cpu_load; VInt allocated_memory;
                        VInt (int_of_NodeStatus st); VStr ""]).
  assert (Hlatest : handle (call_getLatestNodeMetrics node_id) (append w7 t)
                    = (inr stored_tuple, tick (append w7 t))).
  { unfold handle. cbn [serve]. unfold latest.
    rewrite tick_node_history. cbn [append chain].
    rewrite node_history_app. cbn [node_history flat_map].
    rewrite app_nil_r. unfold stored. rewrite Hok.
    cbn [t included c_data signed built raw_txn tx_data f].
    rewrite String.eqb_refl. cbn [andb].
    rewrite last_last. reflexivity. }
  exists (to_hex tx_hash).
  eexists. split; [rewrite Hr1; reflexivity |].
  subst r2. rewrite Hr1. cbn [final fst snd].
  erewrite get_latest_stored; [| exact Hlatest | reflexivity].
  cbn. repeat split; reflexivity.
Qed.

End Roundtrip.

(** ** The ledger keeps its records valid, and the gate on the ledger *)

Section Gate.

Import Ledger.

Lemma handle_valid_chain (q : request) (w : World) :
  valid_chain (chain w) -> valid_chain (chain (snd (handle q w))).
Proof.
  intros V.
  assert (Vt : valid_chain (chain (tick w))).
  { destruct (tick_chain w) as (exts & E & F). rewrite E.
    apply Forall_app. split; [exact V |].
    eapply Forall_impl; [| exact F]. intros t (D & _) _ f Hf.
    rewrite D in Hf. discriminate. }
  unfold handle.
  destruct q as [p | a | a abi | k | a | | n | n s c | f | a | | | f p | t k
                 | raw | tx_hash | v];
    cbn [serve]; try exact Vt.
  - destruct (assoc p (files (tick w))); exact Vt.
  - destruct (is_address a); exact Vt.
  - destruct (assoc k (keyring (tick w))); exact Vt.
  - destruct ((s <? 0) || (c <? 0)); exact Vt.
  - destruct (assoc (raw_key raw) (keyring (tick w))); exact Vt.
  - unfold wait.
    destruct (find _ (chain (tick w))); [exact Vt |].
    destruct (nth_error _ _) as [raw |]; [| exact Vt].
    destruct (assoc (raw_key raw) _) as [sender |]; [| exact Vt].
    destruct (_ && _); [| exact Vt].
    cbn. apply Forall_app. split; [exact Vt |].
    constructor; [| constructor]. cbn. intros Hok f Hf.
    injection Hf as <-. apply andb_true_iff in Hok. apply Hok.
  - destruct v; exact Vt.
Qed.

(** On the ledger, a client the constructor returns holds the key of its
    address and may write. *)
Lemma init_on_ledger (contract_address private_key uri abi_path : string)
    (w : World) (self : AuditLogger) :
  outcome (run handle (__init__ contract_address private_key uri abi_path) w)
  = inr self ->
  assoc (key (account self)) (keyring w) = Some (address self)
  /\ authorized w (address self) = true.
Proof.
  pose proof (frame_keyring (ticks_frame 4 w)) as F4.
  pose proof (frame_loggers (ticks_frame 5 w)) as F5.
  pose proof (frame_owner (ticks_frame 6 w)) as F6.
  change (ticks 4 w) with (tick (tick (tick (tick w)))) in F4.
  change (ticks 5 w) with (tick (tick (tick (tick (tick w))))) in F5.
  change (ticks 6 w) with (tick (tick (tick (tick (tick (tick w)))))) in F6.
  unfold __init__, handle. cbn.
  destruct (assoc abi_path (files (tick w))) as [abi |]; cbn;
    [| discriminate].
  destruct (is_address contract_address); cbn; [| discriminate].
  rewrite F4.
  destruct (assoc private_key (keyring w)) as [a |] eqn:K; cbn;
    [| discriminate].
  rewrite F5. unfold authorized.
  destruct (existsb (String.eqb a) (authorizedLoggers w)) eqn:A; cbn.
  - intros H. injection H as <-. cbn. rewrite A. split; [exact K |].
    reflexivity.
  - rewrite F6.
    destruct (String.eqb (lower a) (lower (owner w))) eqn:O; cbn;
      [| discriminate].
    intros H. injection H as <-. cbn. rewrite A, O. split; [exact K |].
    reflexivity.
Qed.

End Gate.

(** ** Concrete runs *)

Import Ledger Demo.

(** Three runs of the constructor.  [alice] is not in the registry and her
    address differs from the owner's as a string, by the case of its
    letters only: she passes.  [bob] is neither listed nor the owner: he is
    refused.  [carol] is listed, and passes on a node that cannot answer
    for the owner. *)
Lemma init_authorization_gate_witness :
  (handle (call_authorizedLoggers alice) genesis = (inr false, genesis)
   /\ handle call_owner genesis = (inr (owner genesis), genesis)
   /\ String.eqb alice (owner genesis) = false
   /\ outcome (run handle (__init__ deployed "ka" uri abi_file) genesis)
      = inr (client alice "ka"))
  /\ (handle (call_authorizedLoggers bob) genesis = (inr false, genesis)
      /\ outcome (run handle (__init__ deployed "kb" uri abi_file) genesis)
         = inl (unauthorized bob)
      /\ final (run handle (__init__ deployed "kb" uri abi_file) genesis)
         = genesis
      /\ writes (trace_of (run handle (__init__ deployed "kb" uri abi_file)
                             genesis)) = [])
  /\ (Stub.ownerless (call_authorizedLoggers carol) genesis
      = (inr true, genesis)
      /\ fst (Stub.ownerless call_owner genesis)
         = inl (mk_exn (OtherException "BadFunctionCallOutput")
                  "Could not transact with/call contract function")
      /\ outcome (run Stub.ownerless (__init__ deployed "kc" uri abi_file)
                    genesis)
         = inr (client carol "kc")).
Proof.
  assert (Hnever : true = false ->
                   Stub.ownerless call_owner genesis = (inr "", genesis))
    by (intros H; discriminate H).
  split; [| split].
  - do 3 (split; [reflexivity |]).
    exact (proj1
             (@init_authorization_gate World handle deployed "ka" uri abi_file
                genesis genesis genesis genesis genesis genesis genesis
                "[]" deployed (mk_account alice "ka") false (owner genesis)
                eq_refl eq_refl eq_refl eq_refl eq_refl (fun _ => eq_refl))).
  - split; [reflexivity |].
    exact (@init_authorization_gate World handle deployed "kb" uri abi_file
             genesis genesis genesis genesis genesis genesis genesis
             "[]" deployed (mk_account bob "kb") false (owner genesis)
             eq_refl eq_refl eq_refl eq_refl eq_refl (fun _ => eq_refl)).
  - do 2 (split; [reflexivity |]).
    exact (proj1
             (@init_authorization_gate World Stub.ownerless deployed "kc" uri
                abi_file
                genesis genesis genesis genesis genesis genesis genesis
                "[]" deployed (mk_account carol "kc") true ""
                eq_refl eq_refl eq_refl eq_refl eq_refl Hnever)).
Defined.

(** The owner passes the gate although the registry does not list her and
    spells her address in another case. *)
Example init_owner_bypass :
  outcome (run handle (__init__ deployed "ka" uri abi_file) genesis)
  = inr (client alice "ka")
  /\ String.eqb alice (owner genesis) = false.
Proof. split; reflexivity. Qed.

Lemma consistent_genesis : consistent genesis.
Proof. split; constructor. Defined.

Lemma consistent_shared : consistent shared.
Proof. split; constructor. Defined.

Lemma nonce_fresh_and_increasing_witness :
  consistent shared
  /\ exists raw1 raw2,
       writes (trace_of (run handle
                 (_send_transaction (client alice "ka") scale_up 300000)
                 shared))
       = [send_raw_transaction raw1]
       /\ writes (trace_of (run handle
                   (_send_transaction (client alice "ka") scale_up 300000)
                   (final (run handle
                      (_send_transaction (client alice "ka") scale_up 300000)
                      shared))))
          = [send_raw_transaction raw2]
       /\ nonce (tx_params (raw_txn raw1)) < nonce (tx_params (raw_txn raw2)).
Proof.
  split; [exact consistent_shared |].
  exact (proj2 (@nonce_fresh_and_increasing (client alice "ka")
                  scale_up scale_up 300000 300000 shared consistent_shared)
           "0x01" "0x0101" eq_refl eq_refl).
Defined.

(** The count is the one of the moment the gateway is asked: when a
    transfer under the same identity confirms after that and before the
    broadcast, the ledger keeps that transfer for the nonce and the
    submission ends without a receipt. *)
Example send_transaction_overtaken :
  let r := run handle (_send_transaction (client alice "ka") scale_up 300000)
             overtaken in
  outcome r = inl out_of_time
  /\ writes (trace_of r) = [send_raw_transaction scale_up_raw]
  /\ map c_data (chain (final r)) = [None]
  /\ map c_nonce (chain (final r)) = [nonce (tx_params scale_up_txn)].
Proof. repeat split; reflexivity. Qed.

Lemma send_transaction_sequence_witness :
  handle (get_transaction_count alice) genesis = (inr 0, genesis)
  /\ handle chain_id genesis = (inr 1337, genesis)
  /\ handle gas_price genesis = (inr 20, genesis)
  /\ handle (build_transaction scale_up (tx_params scale_up_txn)) genesis
     = (inr scale_up_txn, genesis)
  /\ handle (sign_transaction scale_up_txn "ka") genesis
     = (inr (mk_signed scale_up_raw), genesis)
  /\ handle (send_raw_transaction scale_up_raw) genesis
     = (inr (hash_of 0), after (firstn 6 submission) genesis)
  /\ handle (wait_for_transaction_receipt (hash_of 0))
       (after (firstn 6 submission) genesis)
     = (inr (mk_receipt 1 (hash_of 0)), after submission genesis)
  /\ gas_limit_default = 300000
  /\ run handle (_send_transaction (client alice "ka") scale_up 300000) genesis
     = (inr "0x01", after submission genesis,
        (map Req submission
         ++ [Logged INFO "Transaction successful: 0x01"])%list).
Proof.
  do 7 (split; [reflexivity |]).
  exact (@send_transaction_sequence World handle (client alice "ka")
           scale_up 300000
           genesis genesis genesis genesis genesis genesis
           (after (firstn 6 submission) genesis) (after submission genesis)
           0 1337 20 scale_up_txn (mk_signed scale_up_raw) (hash_of 0)
           (mk_receipt 1 (hash_of 0))
           eq_refl eq_refl eq_refl eq_refl eq_refl eq_refl eq_refl).
Defined.

Lemma log_then_latest_roundtrip_witness :
  consistent genesis
  /\ assoc "ka" (keyring genesis) = Some alice
  /\ authorized genesis alice = true
  /\ quiet alice (schedule genesis)
  /\ 0 <= 1024 /\ 0 <= 75 <= 100 /\ 0 <= 2048
  /\ exists tx_hash record,
       outcome (run handle
                  (log_node_metrics (client alice "ka") "node-1" 1024 75 2048
                     Scaling) genesis)
       = inr tx_hash
       /\ outcome (run handle
                     (get_latest_node_metrics (client alice "ka") "node-1")
                     (final (run handle
                        (log_node_metrics (client alice "ka") "node-1"
                           1024 75 2048 Scaling) genesis)))
          = inr record
       /\ nodeId record = VStr "node-1"
       /\ memoryUsage record = VInt 1024
       /\ cpuLoad record = VInt 75
       /\ allocatedMemory record = VInt 2048
       /\ status_name record = "Scaling".
Proof.
  assert (Hq : quiet alice (schedule genesis)) by constructor.
  assert (Hm : 0 <= 1024) by lia.
  assert (Hc : 0 <= 75 <= 100) by lia.
  assert (Ha : 0 <= 2048) by lia.
  split; [exact consistent_genesis |]. do 2 (split; [reflexivity |]).
  split; [exact Hq |]. split; [exact Hm |]. split; [exact Hc |].
  split; [exact Ha |].
  exact (@log_then_latest_roundtrip (client alice "ka") "node-1"
           1024 75 2048 Scaling genesis
           consistent_genesis eq_refl eq_refl Hq Hm Hc Ha).
Defined.

Lemma get_latest_no_record_witness :
  handle (call_getLatestNodeMetrics "node-1") genesis = (inr [], genesis)
  /\ run handle (get_latest_node_metrics (client alice "ka") "node-1") genesis
     = (inl (mk_exn IndexError "tuple index out of range"), genesis,
        [Req (call_getLatestNodeMetrics "node-1");
         Logged ERROR
           "Error getting latest metrics for node-1: tuple index out of range"]).
Proof.
  split; [reflexivity |].
  exact (@get_latest_no_record World handle (client alice "ka") "node-1"
           genesis genesis eq_refl).
Defined.

Lemma valid_three_records : valid_chain (chain three_records).
Proof.
  repeat constructor; intros _ f H; injection H as <-; reflexivity.
Defined.

Lemma get_history_oldest_first_witness :
  valid_chain (chain three_records)
  /\ 0 <= 0 /\ 0 < 10
  /\ exists entries,
       outcome (run handle
                  (get_node_metrics_history (client alice "ka") "node-1" 0 10)
                  three_records)
       = inr entries
       /\ List.length entries = 3%nat
       /\ map timestamp entries
          = [VInt 1700000000; VInt 1700000001; VInt 1700000002].
Proof.
  assert (H0 : 0 <= 0) by lia. assert (H1 : 0 < 10) by lia.
  split; [exact valid_three_records |]. split; [exact H0 |].
  split; [exact H1 |].
  destruct (@get_history_oldest_first (client alice "ka") "node-1" 0 10
              three_records valid_three_records H0 H1)
    as (entries & Hout & _ & _ & H3).
  exists entries. split; [exact Hout |].
  split; [exact (H3 eq_refl eq_refl eq_refl) |].
  assert (Hinr : forall (A : Type) (x y : A),
             @inr exn A x = inr y -> x = y).
  { intros A x y H. injection H as H. exact H. }
  rewrite <- (Hinr _ _ _ Hout). reflexivity.
Defined.

Lemma send_transaction_timeout_witness :
  handle (wait_for_transaction_receipt (hash_of 0))
    (after (firstn 6 submission) raced)
  = (inl out_of_time, after submission raced)
  /\ exn_cls out_of_time = TimeExhausted
  /\ run handle (_send_transaction (client alice "ka") scale_up 300000) raced
     = (inl out_of_time, after submission raced,
        (map Req submission
         ++ [Logged ERROR
               ("Error sending transaction: " ++ exn_msg out_of_time)])%list)
  /\ exn_cls out_of_time <> Exception
  /\ writes (trace_of (run handle
               (_send_transaction (client alice "ka") scale_up 300000) raced))
     = [send_raw_transaction scale_up_raw].
Proof.
  do 2 (split; [reflexivity |]).
  exact (@send_transaction_timeout World handle (client alice "ka")
           scale_up 300000
           raced (after (firstn 1 submission) raced)
           (after (firstn 2 submission) raced)
           (after (firstn 3 submission) raced)
           (after (firstn 4 submission) raced)
           (after (firstn 5 submission) raced)
           (after (firstn 6 submission) raced) (after submission raced)
           0 1337 20 scale_up_txn (mk_signed scale_up_raw) (hash_of 0)
           out_of_time
           eq_refl eq_refl eq_refl eq_refl eq_refl eq_refl eq_refl eq_refl).
Defined.

Lemma status_decoding_rejects_unknown_witness :
  ~ (0 <= 7 <= 2)
  /\ run handle (get_latest_node_metrics (client alice "ka") "node-1")
       foreign_status
     = (inl (invalid_status 7), foreign_status,
        [Req (call_getLatestNodeMetrics "node-1");
         Logged ERROR
           "Error getting latest metrics for node-1: 7 is not a valid NodeStatus"])
  /\ outcome (run handle (get_latest_node_metrics (client alice "ka")
                           "node-1") Stub.mid_status)
     = inr Stub.newest
  /\ handle (call_getNodeMetricsHistory "node-1" 0 10) Stub.mid_status
     = (inr [Stub.record_tuple 1700000000 0; Stub.record_tuple 1700000001 7;
             Stub.record_tuple 1700000002 2], Stub.mid_status)
  /\ run handle (get_node_metrics_history (client alice "ka") "node-1" 0 10)
       Stub.mid_status
     = (inl (invalid_status 7), Stub.mid_status,
        [Req (call_getNodeMetricsHistory "node-1" 0 10);
         Req (strftime_localtime (VInt 1700000000));
         history_failed "node-1" (invalid_status 7)]).
Proof.
  assert (Hz : ~ (0 <= 7 <= 2)) by lia.
  split; [exact Hz |]. split; [| split; [reflexivity | split; [reflexivity |]]].
  - exact (proj1 (@status_decoding_rejects_unknown World handle
                    (client alice "ka") "node-1" foreign_status)
             foreign_tuple 7 foreign_status eq_refl eq_refl Hz).
  - exact (proj2
             (proj2 (@status_decoding_rejects_unknown World handle
                       (client alice "ka") "node-1" Stub.mid_status)
                0 10 [Stub.record_tuple 1700000000 0]
                [Stub.record_tuple 1700000002 2]
                (Stub.record_tuple 1700000001 7) 7 Stub.mid_status
                eq_refl eq_refl Hz)
             [mk_metrics (VStr "node-1") (VInt 1700000000) (VInt 512)
                (VInt 35) (VInt 1024) "Normal" (VStr "") "@1700000000"]
             Stub.mid_status
             [Req (strftime_localtime (VInt 1700000000))] eq_refl).
Defined.

Lemma log_node_metrics_unchecked_witness :
  handle (send_raw_transaction (mk_raw wild_txn "ka")) genesis
  = (inr (hash_of 0), after (firstn 7 wild_requests) genesis)
  /\ handle (wait_for_transaction_receipt (hash_of 0))
       (after (firstn 7 wild_requests) genesis)
     = (inr (mk_receipt 0 (hash_of 0)), after wild_requests genesis)
  /\ run handle
       (log_node_metrics (client alice "ka") "node-1" (-5) 250 7 Alert)
       genesis
     = (inl (failed (hash_of 0)), after wild_requests genesis,
        (Logged INFO
           "Logging metrics for node node-1: CPU: 250%, Memory: -5/7MB, Status: Alert"
         :: map Req wild_requests
         ++ [Logged ERROR "Transaction failed: 0x01";
             Logged ERROR
               "Error sending transaction: Transaction failed: 0x01"])%list).
Proof.
  do 2 (split; [reflexivity |]).
  exact (@log_node_metrics_unchecked World handle (client alice "ka")
           "node-1" (-5) 250 7 Alert
           genesis genesis genesis genesis genesis genesis genesis
           (after (firstn 7 wild_requests) genesis)
           (after wild_requests genesis)
           0 1337 20 wild_txn (mk_signed (mk_raw wild_txn "ka")) (hash_of 0)
           (inr (mk_receipt 0 (hash_of 0)))
           eq_refl eq_refl eq_refl eq_refl eq_refl eq_refl eq_refl eq_refl).
Defined.

(** ** Beyond the claims: the constructor *)

Section ConstructorPaths.

Context {W : Type} (h : handler W).
Variables (contract_address private_key uri abi_path : string).

(** X1. When the ABI file cannot be read, [__init__] stops at once: the
    address is not checked, the key is not used and the registry is not
    asked.  A [FileNotFoundError] is logged and raised anew with the
    message "Contract ABI file not found: <path>"; any other exception of
    the read is raised as it is, without a log record. *)
Theorem init_abi_unreadable (w w1 : W) (e : exn) :
  h (open_json_load abi_path) w = (inl e, w1) ->
  run h (__init__ contract_address private_key uri abi_path) w
  = if is_FileNotFoundError e then
      (inl (mk_exn FileNotFoundError
              ("Contract ABI file not found: " ++ abi_path)),
       w1,
       [Req (open_json_load abi_path);
        Logged ERROR ("Contract ABI file not found at " ++ abi_path)])
    else (inl e, w1, [Req (open_json_load abi_path)]).
Proof.
  intros H. unfold __init__. cbn. rewrite H. cbn.
  destruct (is_FileNotFoundError e); reflexivity.
Qed.

(** X2. Whatever web3 answers, a client that [__init__] returns went
    through the gate: its account is the one derived from the given key,
    its address is the address of that account, and either the registry
    answered that this address is an approved logger, or it answered that
    it is not and the owner it then gave equals the address once both are
    in lower case. *)
Theorem init_returns_authorized (w : W) (self : AuditLogger) :
  outcome (run h (__init__ contract_address private_key uri abi_path) w)
  = inr self ->
  exists w3 w4 w5,
    h (account_from_key private_key) w3 = (inr (account self), w4)
    /\ address self = account_address (account self)
    /\ (h (call_authorizedLoggers (address self)) w4 = (inr true, w5)
        \/ exists owner w6,
             h (call_authorizedLoggers (address self)) w4 = (inr false, w5)
             /\ h call_owner w5 = (inr owner, w6)
             /\ lower (address self) = lower owner).
Proof.
  unfold __init__. cbn.
  destruct (h (open_json_load abi_path) w) as [[e | abi] w1]; cbn.
  { destruct (is_FileNotFoundError e); discriminate. }
  destruct (h (to_checksum_address contract_address) w1) as [[e | cs] w2];
    cbn; [discriminate |].
  destruct (h (eth_contract cs abi) w2) as [[e | []] w3]; cbn;
    [discriminate |].
  destruct (h (account_from_key private_key) w3) as [[e | acct] w4] eqn:K;
    cbn; [discriminate |].
  destruct (h (call_authorizedLoggers (account_address acct)) w4)
    as [[e | b] w5] eqn:A; cbn; [discriminate |].
  destruct b; cbn.
  - intros H. injection H as <-. exists w3, w4, w5. cbn.
    split; [exact K |]. split; [reflexivity |]. left. exact A.
  - destruct (h call_owner w5) as [[e | o] w6] eqn:O; cbn; [discriminate |].
    destruct (String.eqb_spec (lower (account_address acct)) (lower o))
      as [E | _]; cbn; [| discriminate].
    intros H. injection H as <-. exists w3, w4, w5. cbn.
    split; [exact K |]. split; [reflexivity |]. right.
    exists o, w6. repeat split; assumption.
Qed.

(** X3. Whatever web3 answers or raises, [__init__] sends no transaction
    and makes at most six requests: the read of the ABI, the checksum of
    the address, the binding of the contract, the derivation of the
    account and the one or two questions to the registry. *)
Theorem init_never_writes (w : W) :
  let t := trace_of (run h (__init__ contract_address private_key uri
                              abi_path) w) in
  writes t = [] /\ (List.length (requests t) <= 6)%nat.
Proof.
  cbv zeta. split; [apply init_no_write |].
  unfold __init__. cbn.
  destruct (h (open_json_load abi_path) w) as [[e | abi] w1]; cbn.
  { destruct (is_FileNotFoundError e); cbn; lia. }
  destruct (h (to_checksum_address contract_address) w1) as [[e | cs] w2];
    cbn; [lia |].
  destruct (h (eth_contract cs abi) w2) as [[e | []] w3]; cbn; [lia |].
  destruct (h (account_from_key private_key) w3) as [[e | acct] w4]; cbn;
    [lia |].
  destruct (h (call_authorizedLoggers (account_address acct)) w4)
    as [[e | b] w5]; cbn; [lia |].
  destruct b; cbn; [lia |].
  destruct (h call_owner w5) as [[e | o] w6]; cbn; [lia |].
  destruct (String.eqb (lower (account_address acct)) (lower o)); cbn; lia.
Qed.

(** X16. An address that [to_checksum_address] refuses stops [__init__]
    with the exception of the check, after the ABI was read and before the
    private key is used: no account is derived and nothing is asked of the
    contract. *)
Theorem init_invalid_address (w w1 w2 : W) (abi : ABI) (e : exn) :
  h (open_json_load abi_path) w = (inr abi, w1) ->
  h (to_checksum_address contract_address) w1 = (inl e, w2) ->
  run h (__init__ contract_address private_key uri abi_path) w
  = (inl e, w2,
     [Req (open_json_load abi_path);
      Req (to_checksum_address contract_address)]).
Proof.
  intros H1 H2. unfold __init__. cbn. rewrite H1. cbn. rewrite H2.
  reflexivity.
Qed.

(** X17. The gate fails closed.  When the question to the registry
    raises, [_check_authorization] raises that exception after logging it
    and does not ask for the owner; when the registry says no and the
    question for the owner raises, it raises that exception after logging
    it.  In neither case does it return. *)
Theorem check_authorization_fails_closed (self : AuditLogger)
    (w w1 w2 : W) (e : exn) :
  (h (call_authorizedLoggers (address self)) w = (inl e, w1)
   /\ w2 = w1)
  \/ (h (call_authorizedLoggers (address self)) w = (inr false, w1)
      /\ h call_owner w1 = (inl e, w2)) ->
  outcome (run h (_check_authorization self) w) = inl e
  /\ final (run h (_check_authorization self) w) = w2
  /\ exists t,
       trace_of (run h (_check_authorization self) w)
       = (t ++ [Logged ERROR ("Error checking authorization: "
                              ++ str_exn e)])%list
       /\ (List.length t <= 2)%nat.
Proof.
  unfold _check_authorization. cbn.
  intros [[H1 ->] | [H1 H2]]; rewrite H1; cbn.
  - repeat split. exists [Req (call_authorizedLoggers (address self))].
    split; [reflexivity | cbn; lia].
  - rewrite H2. cbn. repeat split.
    exists [Req (call_authorizedLoggers (address self)); Req call_owner].
    split; [reflexivity | cbn; lia].
Qed.

End ConstructorPaths.

(** ** Beyond the claims: submissions *)

Section SubmissionPaths.

Context {W : Type} (h : handler W).
Variables (self : AuditLogger) (function : contract_function) (gas_limit : Z).

(** The cases of a submission, by the first request that raises. *)
Ltac replies :=
  unfold _send_transaction; cbn;
  destruct (h (get_transaction_count (address self)) _) as [[?e | n] w1];
    cbn; [|
  destruct (h chain_id w1) as [[?e | c] w2]; cbn; [|
  destruct (h gas_price w2) as [[?e | g] w3]; cbn; [|
  destruct (h (build_transaction function _) w3) as [[?e | txn] w4];
    cbn; [|
  destruct (h (sign_transaction txn _) w4) as [[?e | s] w5]; cbn; [|
  destruct (h (send_raw_transaction (rawTransaction s)) w5)
    as [[?e | tx_hash] w6]; cbn; [|
  destruct (h (wait_for_transaction_receipt tx_hash) w6)
    as [[?e | receipt] w7]; cbn; [|
  destruct (status receipt =? 1); cbn ]]]]]]];
  try match goal with
      | |- context [is_ContractLogicError ?e] =>
          is_var e; destruct (is_ContractLogicError e) eqn:?; cbn
      end.

(** X4. Whatever the gateway answers or raises, one call of
    [_send_transaction] broadcasts at most once and makes at most seven
    requests: nothing is retried. *)
Theorem send_transaction_single_broadcast (w : W) :
  let t := trace_of (run h (_send_transaction self function gas_limit) w) in
  (List.length (writes t) <= 1)%nat /\ (List.length (requests t) <= 7)%nat.
Proof.
  cbv zeta. replies; split; lia.
Qed.

(** X5. A hash is returned only for a transaction that went the whole way:
    when [_send_transaction] returns, the gateway has answered all seven
    requests, the receipt has status 1 and the value returned is the
    hexadecimal form of the hash that the broadcast gave. *)
Theorem send_transaction_success_sound (w : W) (returned : string) :
  outcome (run h (_send_transaction self function gas_limit) w)
  = inr returned ->
  exists w1 w2 w3 w4 w5 w6 w7 n c g txn s tx_hash receipt,
    h (get_transaction_count (address self)) w = (inr n, w1)
    /\ h chain_id w1 = (inr c, w2)
    /\ h gas_price w2 = (inr g, w3)
    /\ h (build_transaction function
            {| chainId := c; gas := gas_limit; gasPrice := g; nonce := n |})
         w3 = (inr txn, w4)
    /\ h (sign_transaction txn (key (account self))) w4 = (inr s, w5)
    /\ h (send_raw_transaction (rawTransaction s)) w5 = (inr tx_hash, w6)
    /\ h (wait_for_transaction_receipt tx_hash) w6 = (inr receipt, w7)
    /\ status receipt = 1
    /\ returned = to_hex tx_hash.
Proof.
  unfold _send_transaction. cbn.
  destruct (h (get_transaction_count (address self)) w) as [[e | n] w1] eqn:H1;
    cbn; [destruct (is_ContractLogicError e); discriminate |].
  destruct (h chain_id w1) as [[e | c] w2] eqn:H2; cbn;
    [destruct (is_ContractLogicError e); discriminate |].
  destruct (h gas_price w2) as [[e | g] w3] eqn:H3; cbn;
    [destruct (is_ContractLogicError e); discriminate |].
  destruct (h (build_transaction function _) w3) as [[e | txn] w4] eqn:H4;
    cbn; [destruct (is_ContractLogicError e); discriminate |].
  destruct (h (sign_transaction txn _) w4) as [[e | s] w5] eqn:H5; cbn;
    [destruct (is_ContractLogicError e); discriminate |].
  destruct (h (send_raw_transaction (rawTransaction s)) w5)
    as [[e | tx_hash] w6] eqn:H6; cbn;
    [destruct (is_ContractLogicError e); discriminate |].
  destruct (h (wait_for_transaction_receipt tx_hash) w6)
    as [[e | receipt] w7] eqn:H7; cbn;
    [destruct (is_ContractLogicError e); discriminate |].
  destruct (status receipt =? 1) eqn:St; cbn; [| discriminate].
  intros H. injection H as <-. apply Z.eqb_eq in St.
  exists w1, w2, w3, w4, w5, w6, w7, n, c, g, txn, s, tx_hash, receipt.
  repeat split; assumption.
Qed.

(** X6. No failure of a submission is silent: whenever [_send_transaction]
    raises, the last item of its trace is the error record of that very
    exception, "Contract logic error: ..." for a [ContractLogicError] and
    "Error sending transaction: ..." for any other. *)
Theorem send_transaction_failure_reported (w : W) (e : exn) :
  outcome (run h (_send_transaction self function gas_limit) w) = inl e ->
  exists t,
    trace_of (run h (_send_transaction self function gas_limit) w)
    = (t ++ [reported e])%list.
Proof.
  replies; intros H; try discriminate;
    injection H as <-; unfold reported;
    try match goal with
        | E : is_ContractLogicError _ = _ |- _ => rewrite E
        end;
    unfold is_ContractLogicError; cbn [exn_cls];
    match goal with
    | |- exists t, ?l = (t ++ [?x])%list =>
        exists (removelast l); reflexivity
    end.
Qed.

(** X18. What a submission broadcasts is never anything but the
    transaction it has just built and signed: whenever a broadcast is
    among its requests, the gateway had answered the nonce, the chain id
    and the gas price, the transaction was built from the call, the given
    gas limit and these three answers, and the payload broadcast is the
    one signed with the key of the account. *)
Theorem send_transaction_broadcasts_signed (w : W) (raw : RawTransaction) :
  In (send_raw_transaction raw)
     (requests (trace_of (run h (_send_transaction self function gas_limit) w)))
  ->
  exists w1 w2 w3 w4 w5 n c g txn s,
    h (get_transaction_count (address self)) w = (inr n, w1)
    /\ h chain_id w1 = (inr c, w2)
    /\ h gas_price w2 = (inr g, w3)
    /\ h (build_transaction function
            {| chainId := c; gas := gas_limit; gasPrice := g; nonce := n |})
         w3 = (inr txn, w4)
    /\ h (sign_transaction txn (key (account self))) w4 = (inr s, w5)
    /\ raw = rawTransaction s.
Proof.
  unfold _send_transaction. cbn.
  destruct (h (get_transaction_count (address self)) w) as [[e | n] w1] eqn:H1;
    cbn.
  { destruct (is_ContractLogicError e); cbn; intros [H | []]; discriminate. }
  destruct (h chain_id w1) as [[e | c] w2] eqn:H2; cbn.
  { destruct (is_ContractLogicError e); cbn;
      intros [H | [H | []]]; discriminate. }
  destruct (h gas_price w2) as [[e | g] w3] eqn:H3; cbn.
  { destruct (is_ContractLogicError e); cbn;
      intros [H | [H | [H | []]]]; discriminate. }
  destruct (h (build_transaction function _) w3) as [[e | txn] w4] eqn:H4;
    cbn.
  { destruct (is_ContractLogicError e); cbn;
      intros [H | [H | [H | [H | []]]]]; discriminate. }
  destruct (h (sign_transaction txn _) w4) as [[e | s] w5] eqn:H5; cbn.
  { destruct (is_ContractLogicError e); cbn;
      intros [H | [H | [H | [H | [H | []]]]]]; discriminate. }
  assert (Hraw : send_raw_transaction (rawTransaction s)
                 = send_raw_transaction raw -> raw = rawTransaction s).
  { intros H. injection H as <-. reflexivity. }
  destruct (h (send_raw_transaction (rawTransaction s)) w5)
    as [[e | tx_hash] w6]; cbn.
  { destruct (is_ContractLogicError e); cbn;
      intros [H | [H | [H | [H | [H | [H | []]]]]]]; try discriminate;
      exists w1, w2, w3, w4, w5, n, c, g, txn, s;
      repeat split; try assumption; exact (Hraw H). }
  destruct (h (wait_for_transaction_receipt tx_hash) w6)
    as [[e | receipt] w7]; cbn.
  { destruct (is_ContractLogicError e); cbn;
      intros [H | [H | [H | [H | [H | [H | [H | []]]]]]]];
      try discriminate;
      exists w1, w2, w3, w4, w5, n, c, g, txn, s;
      repeat split; try assumption; exact (Hraw H). }
  destruct (status receipt =? 1); cbn;
    intros [H | [H | [H | [H | [H | [H | [H | []]]]]]]];
    try discriminate;
    exists w1, w2, w3, w4, w5, n, c, g, txn, s;
    repeat split; try assumption; exact (Hraw H).
Qed.

End SubmissionPaths.

(** ** Beyond the claims: the two logging methods *)

Section LoggingPaths.

Context {W : Type} (h : handler W).
Variable self : AuditLogger.

(** X7. [log_scaling_action] passes the node, the action and the reason on
    as they are: it binds [logScalingAction] to the three strings, builds
    the transaction from that call with the default gas limit, broadcasts
    it, and ends as the ledger settles the transaction. *)
Theorem log_scaling_action_run (node_id action reason : string)
    (w w0 w1 w2 w3 w4 w5 w6 w7 : W) (n c g : Z) (txn : Transaction)
    (s : SignedTransaction) (tx_hash : list byte) (x : result Receipt) :
  let f := logScalingAction node_id action reason in
  h (contract_functions f) w = (inr tt, w0) ->
  h (get_transaction_count (address self)) w0 = (inr n, w1) ->
  h chain_id w1 = (inr c, w2) ->
  h gas_price w2 = (inr g, w3) ->
  h (build_transaction f
       {| chainId := c; gas := gas_limit_default; gasPrice := g; nonce := n |})
    w3 = (inr txn, w4) ->
  h (sign_transaction txn (key (account self))) w4 = (inr s, w5) ->
  h (send_raw_transaction (rawTransaction s)) w5 = (inr tx_hash, w6) ->
  h (wait_for_transaction_receipt tx_hash) w6 = (x, w7) ->
  run h (log_scaling_action self node_id action reason) w
  = let '(r, w', t) :=
      settled self f gas_limit_default n c g txn s tx_hash x w7 in
    (r, w',
     logging_scaling node_id action reason
     :: Req (contract_functions f) :: t).
Proof.
  intros f H0 H1 H2 H3 H4 H5 H6 H7.
  unfold log_scaling_action. fold f.
  rewrite run_bind. cbn [logger run].
  rewrite run_bind, (run_perform h (contract_functions f)), H0. cbn [fst snd].
  rewrite (send_transaction_run h self w0 H1 H2 H3 H4 H5 H6 H7).
  destruct (settled self f gas_limit_default n c g txn s tx_hash x w7)
    as [[r w'] t].
  reflexivity.
Qed.

(** X8. When the binding of the contract function raises, as web3 does for
    arguments that do not fit the ABI, the logging method raises that
    exception before anything is asked of the gateway: no nonce is fetched,
    nothing is signed or broadcast, and the failure gets no error record,
    the binding being outside the [try] of [_send_transaction].  This holds
    for [log_node_metrics] and for [log_scaling_action], each on its own
    binding. *)
Theorem binding_failure_skips_submission (w : W) :
  (forall (node_id : string) (memory_usage cpu_load allocated_memory : Z)
          (st : NodeStatus) (w1 : W) (e : exn),
      h (contract_functions
           (logNodeMetrics node_id memory_usage cpu_load allocated_memory
              (int_of_NodeStatus st))) w = (inl e, w1) ->
      run h (log_node_metrics self node_id memory_usage cpu_load
               allocated_memory st) w
      = (inl e, w1,
         [logging_metrics node_id memory_usage cpu_load allocated_memory st;
          Req (contract_functions
                 (logNodeMetrics node_id memory_usage cpu_load
                    allocated_memory (int_of_NodeStatus st)))]))
  /\ (forall (node_id action reason : string) (w1 : W) (e : exn),
      h (contract_functions (logScalingAction node_id action reason)) w
        = (inl e, w1) ->
      run h (log_scaling_action self node_id action reason) w
      = (inl e, w1,
         [logging_scaling node_id action reason;
          Req (contract_functions
                 (logScalingAction node_id action reason))])).
Proof.
  split.
  - intros node_id memory_usage cpu_load allocated_memory st w1 e H.
    unfold log_node_metrics. cbv zeta. rewrite run_bind. cbn [logger run].
    rewrite run_bind, (run_perform h (contract_functions _)), H.
    reflexivity.
  - intros node_id action reason w1 e H.
    unfold log_scaling_action. cbv zeta. rewrite run_bind. cbn [logger run].
    rewrite run_bind, (run_perform h (contract_functions _)), H.
    reflexivity.
Qed.

End LoggingPaths.

(** ** Beyond the claims: the two readers *)

Section ReaderPaths.

Context {W : Type} (h : handler W).
Variables (self : AuditLogger) (node_id : string).

(** One entry of the history, when the loop body returns it. *)
Lemma history_entry_sound (m : list value) (w w' : W) (e : NodeMetrics)
    (t : trace) :
  run h (history_entry m) w = (inr e, w', t) ->
  shows e (firstn 7 m)
  /\ h (strftime_localtime (timestamp e)) w = (inr (datetime e), w')
  /\ t = [Req (strftime_localtime (timestamp e))].
Proof.
  destruct m as [| m0 [| m1 [| m2 [| m3 [| m4 [| m5 [| m6 rest]]]]]]];
    try discriminate; unfold history_entry; cbn; unfold status_name_of.
  - destruct (NodeStatus_of_value m5); discriminate.
  - destruct (NodeStatus_of_value m5) as [x | s] eqn:S; cbn; [discriminate |].
    destruct (h (strftime_localtime m1) w) as [[x | dt] w1] eqn:C; cbn;
      [discriminate |].
    intros H. injection H as <- <- <-. cbn. split; [| split].
    + exists s. rewrite (NodeStatus_of_value_inr _ S). split; reflexivity.
    + exact C.
    + reflexivity.
Qed.

Lemma history_loop_sound (l : list (list value)) :
  forall (acc : list NodeMetrics) (w w' : W) (res : list NodeMetrics)
         (t : trace),
  run h (history_loop l acc) w = (inr res, w', t) ->
  exists entries,
    res = (acc ++ entries)%list
    /\ Forall2 shows entries (map (firstn 7) l)
    /\ t = map (fun e => Req (strftime_localtime (timestamp e))) entries.
Proof.
  induction l as [| m l IH]; intros acc w w' res t.
  - cbn. intros H. injection H as <- _ <-. exists [].
    rewrite app_nil_r. repeat split. constructor.
  - cbn [history_loop]. rewrite run_bind.
    destruct (run h (history_entry m) w) as [[[x | e] w1] t1] eqn:E;
      [discriminate |].
    destruct (run h (history_loop l (acc ++ [e])) w1) as [[r w2] t2] eqn:L.
    intros H. injection H as -> <- <-.
    destruct (history_entry_sound _ _ E) as (Hs & _ & ->).
    destruct (IH _ _ _ _ _ L) as (entries & -> & Hall & ->).
    exists (e :: entries). rewrite <- app_assoc. repeat split.
    constructor; assumption.
Qed.

(** X9. Whatever the contract answers, a record that
    [get_latest_node_metrics] returns shows the first seven fields of the
    tuple received, field by field and the status by the name of the enum
    member with that integer; its [datetime] is what the clock gave for
    the timestamp field.  Fields beyond the seventh are ignored. *)
Theorem get_latest_sound (w w1 : W) (metrics : list value)
    (record : NodeMetrics) :
  h (call_getLatestNodeMetrics node_id) w = (inr metrics, w1) ->
  outcome (run h (get_latest_node_metrics self node_id) w) = inr record ->
  shows record (firstn 7 metrics)
  /\ exists w2,
       h (strftime_localtime (timestamp record)) w1
       = (inr (datetime record), w2).
Proof.
  intros Hm. unfold get_latest_node_metrics. cbn. rewrite Hm. cbn.
  destruct metrics as [| m0 [| m1 [| m2 [| m3 [| m4 [| m5 [| m6 rest]]]]]]];
    cbn; try discriminate; unfold status_name_of.
  - destruct (NodeStatus_of_value m5); discriminate.
  - destruct (NodeStatus_of_value m5) as [x | s] eqn:S; cbn; [discriminate |].
    destruct (h (strftime_localtime m1) w1) as [[x | dt] w2] eqn:C; cbn;
      [discriminate |].
    intros H. injection H as <-. cbn. split.
    + exists s. rewrite (NodeStatus_of_value_inr _ S). split; reflexivity.
    + exists w2. exact C.
Qed.

(** X10. A tuple of fewer than seven fields never becomes a record:
    [get_latest_node_metrics] raises, an [IndexError] of the missing
    subscript or the [ValueError] of the status when that comes first, logs
    it and asks nothing of the clock. *)
Theorem get_latest_short_tuple (w w1 : W) (metrics : list value) :
  h (call_getLatestNodeMetrics node_id) w = (inr metrics, w1) ->
  (List.length metrics < 7)%nat ->
  exists e,
    run h (get_latest_node_metrics self node_id) w
    = (inl e, w1,
       [Req (call_getLatestNodeMetrics node_id); latest_failed node_id e])
    /\ (exn_cls e = IndexError \/ exn_cls e = ValueError).
Proof.
  intros Hm Hlen. unfold get_latest_node_metrics. cbn. rewrite Hm. cbn.
  destruct metrics as [| m0 [| m1 [| m2 [| m3 [| m4 [| m5 [| m6 rest]]]]]]];
    cbn in Hlen; try lia; cbn;
    try (exists (mk_exn IndexError "tuple index out of range");
         split; [reflexivity | left; reflexivity]).
  unfold status_name_of.
  destruct (NodeStatus_of_value m5) as [e | s] eqn:S; cbn.
  - exists e. split; [reflexivity |]. right. revert S.
    unfold NodeStatus_of_value.
    destruct m5 as [str | [| [p | [p | p |] |] | p]];
      intros S; try discriminate; injection S as <-; reflexivity.
  - exists (mk_exn IndexError "tuple index out of range").
    split; [reflexivity | left; reflexivity].
Qed.

(** X11. When the clock cannot render the timestamp of an otherwise well
    formed tuple, [get_latest_node_metrics] returns no record: it raises
    the exception of the clock after logging it. *)
Theorem get_latest_clock_failure (w w1 w2 : W) (m0 m1 m2 m3 m4 m6 : value)
    (rest : list value) (st : NodeStatus) (e : exn) :
  h (call_getLatestNodeMetrics node_id) w
    = (inr (m0 :: m1 :: m2 :: m3 :: m4 :: VInt (int_of_NodeStatus st)
            :: m6 :: rest), w1) ->
  h (strftime_localtime m1) w1 = (inl e, w2) ->
  run h (get_latest_node_metrics self node_id) w
  = (inl e, w2,
     [Req (call_getLatestNodeMetrics node_id);
      Req (strftime_localtime m1); latest_failed node_id e]).
Proof.
  intros Hm Hc. unfold get_latest_node_metrics. cbn. rewrite Hm. cbn.
  destruct st; cbn; rewrite Hc; reflexivity.
Qed.

(** X12. Whatever the contract answers, a list that
    [get_node_metrics_history] returns has one entry for each tuple
    received, in the order received; each entry shows the first seven
    fields of its tuple; and after the contract call the clock was asked
    once for each entry, in that order. *)
Theorem get_history_sound (start_index count : Z) (w w1 : W)
    (metrics_list : list (list value)) (entries : list NodeMetrics) :
  h (call_getNodeMetricsHistory node_id start_index count) w
    = (inr metrics_list, w1) ->
  outcome (run h (get_node_metrics_history self node_id start_index count) w)
  = inr entries ->
  Forall2 shows entries (map (firstn 7) metrics_list)
  /\ List.length entries = List.length metrics_list
  /\ trace_of (run h (get_node_metrics_history self node_id start_index
                        count) w)
     = Req (call_getNodeMetricsHistory node_id start_index count)
       :: map (fun e => Req (strftime_localtime (timestamp e))) entries.
Proof.
  intros Hm. unfold get_node_metrics_history.
  rewrite run_catch, run_bind.
  rewrite (run_perform h
             (call_getNodeMetricsHistory node_id start_index count)).
  rewrite Hm. cbn [fst snd].
  destruct (run h (history_loop metrics_list []) w1) as [[[x | res] w2] t2]
    eqn:L.
  - cbn. discriminate.
  - cbn. intros H. injection H as ->.
    destruct (history_loop_sound _ _ _ L) as (es & E & Hall & ->).
    cbn in E. subst es. split; [exact Hall |]. split; [| reflexivity].
    rewrite (Forall2_length Hall), length_map. reflexivity.
Qed.

(** X13. For a node whose history the contract reports as empty,
    [get_node_metrics_history] returns the empty list: one contract call,
    no question to the clock, no log record. *)
Theorem get_history_empty (start_index count : Z) (w w1 : W) :
  h (call_getNodeMetricsHistory node_id start_index count) w = (inr [], w1) ->
  run h (get_node_metrics_history self node_id start_index count) w
  = (inr [], w1, [Req (call_getNodeMetricsHistory node_id start_index count)]).
Proof.
  intros Hm. unfold get_node_metrics_history. cbn. rewrite Hm. reflexivity.
Qed.

(** The loop of the history asks the clock only. *)
Lemma history_loop_reads (l : list (list value)) :
  forall (acc : list NodeMetrics) (w : W),
  forallb is_read (requests (trace_of (run h (history_loop l acc) w))) = true.
Proof.
  induction l as [| m l IH]; intros acc w; [reflexivity |].
  cbn [history_loop]. rewrite run_bind.
  destruct (run h (history_entry m) w) as [[[x | e] w1] t1] eqn:E.
  - revert E.
    destruct m as [| m0 [| m1 [| m2 [| m3 [| m4 [| m5 [| m6 rest]]]]]]];
      unfold history_entry; cbn; unfold status_name_of;
      try (intros E; injection E as _ _ <-; reflexivity);
      destruct (NodeStatus_of_value m5); cbn;
      try (intros E; injection E as _ _ <-; reflexivity).
    destruct (h (strftime_localtime m1) w) as [[y | dt] w2]; cbn;
      intros E; injection E as _ _ <-; reflexivity.
  - destruct (history_entry_sound _ _ E) as (_ & _ & ->).
    specialize (IH (acc ++ [e])%list w1). unfold trace_of in *.
    destruct (run h (history_loop l (acc ++ [e])) w1) as [[r w2] t2].
    cbn in *. exact IH.
Qed.

(** X14. The two readers only read: whatever the contract and the clock
    answer or raise, every request of [get_latest_node_metrics] and of
    [get_node_metrics_history] is the contract call or a question to the
    clock; no nonce is fetched, nothing is signed and nothing is
    broadcast. *)
Theorem readers_read_only (start_index count : Z) (w : W) :
  let latest := trace_of (run h (get_latest_node_metrics self node_id) w) in
  let history :=
    trace_of (run h (get_node_metrics_history self node_id start_index
                       count) w) in
  forallb is_read (requests latest) = true
  /\ writes latest = []
  /\ forallb is_read (requests history) = true
  /\ writes history = [].
Proof.
  cbv zeta.
  assert (Hw : forall t, forallb is_read (requests t) = true -> writes t = []).
  { intros t. unfold writes. induction (requests t) as [| q qs IH];
      [reflexivity |].
    cbn. intros H. apply andb_true_iff in H. destruct H as [Hq Hqs].
    destruct q; try discriminate; cbn; apply IH; exact Hqs. }
  assert (Hl : forallb is_read
                 (requests (trace_of (run h (get_latest_node_metrics self
                                               node_id) w))) = true).
  { unfold get_latest_node_metrics. cbn.
    destruct (h (call_getLatestNodeMetrics node_id) w) as [[x | metrics] w1];
      cbn; [reflexivity |].
    destruct metrics
      as [| m0 [| m1 [| m2 [| m3 [| m4 [| m5 [| m6 rest]]]]]]];
      cbn; try reflexivity; unfold status_name_of;
      destruct (NodeStatus_of_value m5); cbn; try reflexivity.
    destruct (h (strftime_localtime m1) w1) as [[y | dt] w2]; reflexivity. }
  assert (Hh : forallb is_read
                 (requests (trace_of (run h (get_node_metrics_history self
                                               node_id start_index count) w)))
               = true).
  { unfold get_node_metrics_history. rewrite run_catch, run_bind.
    rewrite (run_perform h
               (call_getNodeMetricsHistory node_id start_index count)).
    destruct (h (call_getNodeMetricsHistory node_id start_index count) w)
      as [[x | l] w1]; cbn [fst snd]; [reflexivity |].
    pose proof (history_loop_reads l [] w1) as Hloop. unfold trace_of in *.
    destruct (run h (history_loop l []) w1) as [[[x | res] w2] t2];
      cbn in *.
    - unfold requests in *. rewrite flat_map_app, forallb_app, Hloop.
      reflexivity.
    - exact Hloop. }
  repeat split; auto.
Qed.

End ReaderPaths.

(** ** Beyond the claims: the status enum *)

(** X15. [NodeStatus(v)] succeeds for the integers 0, 1 and 2 and for
    nothing else, and [int] of the member it gives is the integer it was
    given; the three members have three different integers and three
    different names, so the name in a record tells the status. *)
Theorem NodeStatus_decode_encode (v : value) (s s' : NodeStatus) :
  (NodeStatus_of_value v = inr s <-> v = VInt (int_of_NodeStatus s))
  /\ (int_of_NodeStatus s = int_of_NodeStatus s' -> s = s')
  /\ (name s = name s' -> s = s').
Proof.
  split; [split |].
  - apply NodeStatus_of_value_inr.
  - intros ->. destruct s; reflexivity.
  - split; destruct s, s'; intros H; try reflexivity; discriminate.
Qed.

(** ** Concrete runs of the paths beyond the claims *)

Lemma init_abi_unreadable_witness :
  handle (open_json_load "missing.json") genesis
  = (inl (mk_exn FileNotFoundError
            "[Errno 2] No such file or directory: 'missing.json'"), genesis)
  /\ run handle (__init__ deployed "ka" uri "missing.json") genesis
     = (inl (mk_exn FileNotFoundError
               "Contract ABI file not found: missing.json"),
        genesis,
        [Req (open_json_load "missing.json");
         Logged ERROR "Contract ABI file not found at missing.json"]).
Proof.
  split; [reflexivity |].
  exact (@init_abi_unreadable World handle deployed "ka" uri "missing.json"
           genesis genesis
           (mk_exn FileNotFoundError
              "[Errno 2] No such file or directory: 'missing.json'")
           eq_refl).
Defined.

Lemma init_returns_authorized_witness :
  outcome (run handle (__init__ deployed "ka" uri abi_file) genesis)
  = inr (client alice "ka")
  /\ exists w3 w4 w5,
       handle (account_from_key "ka") w3 = (inr (mk_account alice "ka"), w4)
       /\ alice = alice
       /\ (handle (call_authorizedLoggers alice) w4 = (inr true, w5)
           \/ exists owner w6,
                handle (call_authorizedLoggers alice) w4 = (inr false, w5)
                /\ handle call_owner w5 = (inr owner, w6)
                /\ lower alice = lower owner).
Proof.
  split; [reflexivity |].
  exact (@init_returns_authorized World handle deployed "ka" uri abi_file
           genesis (client alice "ka") eq_refl).
Defined.

Lemma send_transaction_success_sound_witness :
  outcome (run handle (_send_transaction (client alice "ka") scale_up 300000)
             genesis)
  = inr "0x01"
  /\ exists tx_hash receipt w6 w7,
       handle (wait_for_transaction_receipt tx_hash) w6 = (inr receipt, w7)
       /\ status receipt = 1
       /\ "0x01" = to_hex tx_hash.
Proof.
  split; [reflexivity |].
  destruct (@send_transaction_success_sound World handle (client alice "ka")
              scale_up 300000 genesis "0x01" eq_refl)
    as (w1 & w2 & w3 & w4 & w5 & w6 & w7 & n & c & g & txn & s & tx_hash
        & receipt & _ & _ & _ & _ & _ & _ & H7 & Hs & Hr).
  exists tx_hash, receipt, w6, w7. repeat split; assumption.
Defined.

Lemma send_transaction_failure_reported_witness :
  outcome (run handle (_send_transaction (client alice "ka") scale_up 300000)
             raced)
  = inl out_of_time
  /\ exists t,
       trace_of (run handle
                   (_send_transaction (client alice "ka") scale_up 300000)
                   raced)
       = (t ++ [reported out_of_time])%list.
Proof.
  split; [reflexivity |].
  exact (@send_transaction_failure_reported World handle (client alice "ka")
           scale_up 300000 raced out_of_time eq_refl).
Defined.

Lemma log_scaling_action_run_witness :
  handle (contract_functions scale_up) genesis = (inr tt, genesis)
  /\ handle (wait_for_transaction_receipt (hash_of 0))
       (after (firstn 6 submission) genesis)
     = (inr (mk_receipt 1 (hash_of 0)), after submission genesis)
  /\ run handle
       (log_scaling_action (client alice "ka") "node-1" "scale_up"
          "High CPU load detected by RL model") genesis
     = (inr "0x01", after submission genesis,
        (Logged INFO
           "Logging scaling action for node node-1: scale_up - High CPU load detected by RL model"
         :: Req (contract_functions scale_up) :: map Req submission
         ++ [Logged INFO "Transaction successful: 0x01"])%list).
Proof.
  do 2 (split; [reflexivity |]).
  exact (@log_scaling_action_run World handle (client alice "ka")
           "node-1" "scale_up" "High CPU load detected by RL model"
           genesis genesis genesis genesis genesis genesis genesis
           (after (firstn 6 submission) genesis) (after submission genesis)
           0 1337 20 scale_up_txn (mk_signed scale_up_raw) (hash_of 0)
           (inr (mk_receipt 1 (hash_of 0)))
           eq_refl eq_refl eq_refl eq_refl eq_refl eq_refl eq_refl eq_refl).
Defined.

(** Behind a binding for unsigned arguments a negative size stops
    [log_node_metrics] before the ledger is asked anything, although the
    same node binds [logScalingAction]; behind an interface description
    without [logScalingAction] the binding stops [log_scaling_action],
    although the same node binds [logNodeMetrics]; and so does a node that
    cannot be reached. *)
Lemma binding_failure_skips_submission_witness :
  (Stub.unsigned_binding (contract_functions wild) genesis
   = (inl Stub.mismatched, genesis)
   /\ Stub.unsigned_binding (contract_functions scale_up) genesis
      = (inr tt, genesis)
   /\ run Stub.unsigned_binding
        (log_node_metrics (client alice "ka") "node-1" (-5) 250 7 Alert)
        genesis
      = (inl Stub.mismatched, genesis,
         [logging_metrics "node-1" (-5) 250 7 Alert;
          Req (contract_functions wild)]))
  /\ (Stub.metrics_only (contract_functions scale_up) genesis
      = (inl Stub.unlisted, genesis)
      /\ Stub.metrics_only (contract_functions wild) genesis
         = (inr tt, genesis)
      /\ run Stub.metrics_only
           (log_scaling_action (client alice "ka") "node-1" "scale_up"
              "High CPU load detected by RL model") genesis
         = (inl Stub.unlisted, genesis,
            [logging_scaling "node-1" "scale_up"
               "High CPU load detected by RL model";
             Req (contract_functions scale_up)]))
  /\ (Stub.offline (contract_functions scale_up) tt
      = (inl Stub.unreachable, tt)
      /\ run Stub.offline
           (log_scaling_action (client alice "ka") "node-1" "scale_up"
              "High CPU load detected by RL model") tt
         = (inl Stub.unreachable, tt,
            [logging_scaling "node-1" "scale_up"
               "High CPU load detected by RL model";
             Req (contract_functions scale_up)])).
Proof.
  split; [| split].
  - do 2 (split; [reflexivity |]).
    exact (proj1 (@binding_failure_skips_submission World
                    Stub.unsigned_binding (client alice "ka") genesis)
             "node-1" (-5) 250 7 Alert genesis Stub.mismatched eq_refl).
  - do 2 (split; [reflexivity |]).
    exact (proj2 (@binding_failure_skips_submission World
                    Stub.metrics_only (client alice "ka") genesis)
             "node-1" "scale_up" "High CPU load detected by RL model"
             genesis Stub.unlisted eq_refl).
  - split; [reflexivity |].
    exact (proj2 (@binding_failure_skips_submission unit Stub.offline
                    (client alice "ka") tt)
             "node-1" "scale_up" "High CPU load detected by RL model"
             tt Stub.unreachable eq_refl).
Defined.

Lemma get_latest_sound_witness :
  handle (call_getLatestNodeMetrics "node-1") three_records
  = (inr (Stub.record_tuple 1700000002 2), three_records)
  /\ outcome (run handle (get_latest_node_metrics (client alice "ka") "node-1")
                three_records)
     = inr Stub.newest
  /\ shows Stub.newest (firstn 7 (Stub.record_tuple 1700000002 2))
  /\ exists w2,
       handle (strftime_localtime (VInt 1700000002)) three_records
       = (inr "@1700000002", w2).
Proof.
  do 2 (split; [reflexivity |]).
  exact (@get_latest_sound World handle (client alice "ka") "node-1"
           three_records three_records (Stub.record_tuple 1700000002 2)
           Stub.newest eq_refl eq_refl).
Defined.

Lemma get_latest_short_tuple_witness :
  handle (call_getLatestNodeMetrics "node-1") genesis = (inr [], genesis)
  /\ (@List.length value [] < 7)%nat
  /\ exists e,
       run handle (get_latest_node_metrics (client alice "ka") "node-1")
         genesis
       = (inl e, genesis,
          [Req (call_getLatestNodeMetrics "node-1");
           latest_failed "node-1" e])
       /\ (exn_cls e = IndexError \/ exn_cls e = ValueError).
Proof.
  assert (Hlen : (@List.length value [] < 7)%nat) by (cbn; lia).
  split; [reflexivity |]. split; [exact Hlen |].
  exact (@get_latest_short_tuple World handle (client alice "ka") "node-1"
           genesis genesis [] eq_refl Hlen).
Defined.

Lemma get_latest_clock_failure_witness :
  Stub.canned Stub.undated (call_getLatestNodeMetrics "node-1") tt
  = (inr Stub.undated, tt)
  /\ Stub.canned Stub.undated (strftime_localtime (VStr "soon")) tt
     = (inl (mk_exn TypeError "an integer is required (got type str)"), tt)
  /\ run (Stub.canned Stub.undated)
       (get_latest_node_metrics (client alice "ka") "node-1") tt
     = (inl (mk_exn TypeError "an integer is required (got type str)"), tt,
        [Req (call_getLatestNodeMetrics "node-1");
         Req (strftime_localtime (VStr "soon"));
         latest_failed "node-1"
           (mk_exn TypeError "an integer is required (got type str)")]).
Proof.
  do 2 (split; [reflexivity |]).
  exact (@get_latest_clock_failure unit (Stub.canned Stub.undated)
           (client alice "ka") "node-1" tt tt tt
           (VStr "node-1") (VStr "soon") (VInt 512) (VInt 35) (VInt 1024)
           (VStr "") [] Normal
           (mk_exn TypeError "an integer is required (got type str)")
           eq_refl eq_refl).
Defined.

Lemma get_history_sound_witness :
  handle (call_getNodeMetricsHistory "node-1" 0 10) three_records
  = (inr Stub.three_tuples, three_records)
  /\ exists entries,
       outcome (run handle
                  (get_node_metrics_history (client alice "ka") "node-1" 0 10)
                  three_records)
       = inr entries
       /\ Forall2 shows entries (map (firstn 7) Stub.three_tuples)
       /\ List.length entries = 3%nat.
Proof.
  split; [reflexivity |].
  eexists. split; [reflexivity |].
  destruct (@get_history_sound World handle (client alice "ka") "node-1"
              0 10 three_records three_records Stub.three_tuples _
              eq_refl eq_refl)
    as (Hall & Hlen & _).
  split; [exact Hall | exact Hlen].
Defined.

Lemma get_history_empty_witness :
  handle (call_getNodeMetricsHistory "node-1" 0 10) genesis
  = (inr [], genesis)
  /\ run handle (get_node_metrics_history (client alice "ka") "node-1" 0 10)
       genesis
     = (inr [], genesis, [Req (call_getNodeMetricsHistory "node-1" 0 10)]).
Proof.
  split; [reflexivity |].
  exact (@get_history_empty World handle (client alice "ka") "node-1" 0 10
           genesis genesis eq_refl).
Defined.

Lemma init_invalid_address_witness :
  handle (open_json_load abi_file) genesis = (inr "[]", genesis)
  /\ handle (to_checksum_address "0x123...456") genesis
     = (inl (mk_exn ValueError "Unknown format '0x123...456'"), genesis)
  /\ run handle (__init__ "0x123...456" "0xabc...def" uri abi_file) genesis
     = (inl (mk_exn ValueError "Unknown format '0x123...456'"), genesis,
        [Req (open_json_load abi_file);
         Req (to_checksum_address "0x123...456")]).
Proof.
  do 2 (split; [reflexivity |]).
  exact (@init_invalid_address World handle "0x123...456" "0xabc...def" uri
           abi_file genesis genesis genesis "[]"
           (mk_exn ValueError "Unknown format '0x123...456'")
           eq_refl eq_refl).
Defined.

Lemma check_authorization_fails_closed_witness :
  Stub.offline (call_authorizedLoggers alice) tt = (inl Stub.unreachable, tt)
  /\ outcome (run Stub.offline (_check_authorization (client alice "ka")) tt)
     = inl Stub.unreachable
  /\ final (run Stub.offline (_check_authorization (client alice "ka")) tt)
     = tt
  /\ exists t,
       trace_of (run Stub.offline (_check_authorization (client alice "ka"))
                   tt)
       = (t ++ [Logged ERROR ("Error checking authorization: "
                              ++ str_exn Stub.unreachable)])%list
       /\ (List.length t <= 2)%nat.
Proof.
  split; [reflexivity |].
  exact (@check_authorization_fails_closed unit Stub.offline
           (client alice "ka") tt tt tt Stub.unreachable
           (or_introl (conj eq_refl eq_refl))).
Defined.

Lemma send_transaction_broadcasts_signed_witness :
  In (send_raw_transaction scale_up_raw)
     (requests (trace_of (run handle
        (_send_transaction (client alice "ka") scale_up 300000) genesis)))
  /\ exists w1 w2 w3 w4 w5 n c g txn s,
       handle (get_transaction_count alice) genesis = (inr n, w1)
       /\ handle chain_id w1 = (inr c, w2)
       /\ handle gas_price w2 = (inr g, w3)
       /\ handle (build_transaction scale_up
                    {| chainId := c; gas := 300000; gasPrice := g;
                       nonce := n |}) w3 = (inr txn, w4)
       /\ handle (sign_transaction txn "ka") w4 = (inr s, w5)
       /\ scale_up_raw = rawTransaction s.
Proof.
  assert (Hin : In (send_raw_transaction scale_up_raw)
                  (requests (trace_of (run handle
                     (_send_transaction (client alice "ka") scale_up 300000)
                     genesis)))).
  { do 5 right. left. reflexivity. }
  split; [exact Hin |].
  exact (@send_transaction_broadcasts_signed World handle (client alice "ka")
           scale_up 300000 genesis scale_up_raw Hin).
Defined.
